(** * Black engine: renderer synchronisation and the canvas video driver

    A shallow embedding of
    - [BitmapTextField.onRender], the [Sprite] and [BitmapTextField]
      property setters (display nodes and their dirty-flag mask), and
    - [CanvasDriver] (the canvas-backed video driver), and
    - the starting, pausing and stopping of a [Tween],
    together with the properties the specification states about them and
    further properties read off the code.

    JavaScript numbers are IEEE 754 binary64 values: they are embedded as
    Rocq's primitive [float]s.  The dirty mask is only ever touched by the
    bitwise operators, which work on 32-bit two's complement integers: it is
    embedded as a [Z] with the [ToInt32] wrap-around written out. *)

From Stdlib Require Import ZArith Bool List Ascii String Lia Floats.
Import ListNotations.

Set Warnings "-inexact-float".

Local Open Scope string_scope.
Local Open Scope list_scope.
Local Open Scope Z_scope.

(** ** JavaScript numbers, 32-bit integers and bitwise operators *)

Module Js.

Abbreviation number := float.

(** [ToInt32] on an integer: reduction modulo [2^32] into
    [-2^31 .. 2^31 - 1]. *)
Definition wrap32 (z : Z) : Z := (z + 2 ^ 31) mod 2 ^ 32 - 2 ^ 31.

(** The operands of [&], [^] and [|] go through [ToInt32]; the result is a
    32-bit integer again. *)
Definition bitand (a b : Z) : Z := wrap32 (Z.land (wrap32 a) (wrap32 b)).
Definition bitxor (a b : Z) : Z := wrap32 (Z.lxor (wrap32 a) (wrap32 b)).
Definition bitor (a b : Z) : Z := wrap32 (Z.lor (wrap32 a) (wrap32 b)).
Definition bitnot (a : Z) : Z := wrap32 (Z.lnot (wrap32 a)).

(** Truthiness of a number used as a condition: everything but zero. *)
Definition truthy (z : Z) : bool := negb (z =? 0).

(** Integer part of a number, rounding towards zero; [NaN] and the
    infinities give [0], as in [ToInt32]. *)
Definition truncate (x : number) : Z :=
  match Prim2SF x with
  | S754_finite s m e =>
      let mag := if 0 <=? e then Z.pos m * 2 ^ e else Z.pos m / 2 ^ (- e) in
      if s then - mag else mag
  | _ => 0
  end.

(** [ToInt32] on a number. *)
Definition ToInt32 (x : number) : Z := wrap32 (truncate x).

(** A 32-bit integer as a number (exact: [|z| <= 2^31 < 2^53]). *)
Definition ofInt32 (z : Z) : number :=
  if z <? 0 then (- of_uint63 (Uint63.of_Z (- z)))%float
  else of_uint63 (Uint63.of_Z z).

(** [x | 0] on a number. *)
Definition or0 (x : number) : number := ofInt32 (wrap32 (Z.lor (ToInt32 x) 0)).

(** The global [isNaN] on a number. *)
Definition isNaN (x : number) : bool := is_nan x.

(** [==] and [===] between two numbers. *)
Definition num_eq (x y : number) : bool := (x =? y)%float.

End Js.

(** A value that is [null], [undefined] or a string, compared with [===]. *)
Inductive JsStr : Type :=
| Null
| Undefined
| Str (s : string).

Definition JsStr_eqb (u v : JsStr) : bool :=
  match u, v with
  | Null, Null => true
  | Undefined, Undefined => true
  | Str s, Str t => String.eqb s t
  | _, _ => false
  end.

(** Objects are held by reference; [===] on two references compares the
    addresses.  [None] is [null]. *)
Definition ref := positive.

Definition ref_eqb (u v : option ref) : bool :=
  match u, v with
  | None, None => true
  | Some p, Some q => Pos.eqb p q
  | _, _ => false
  end.

(** ** Results of calls that may throw *)

Inductive result (A : Type) : Type :=
| Ok (a : A)
| Throw (message : string).

Arguments Ok {A} a.
Arguments Throw {A} message.

Definition bind {A B : Type} (r : result A) (k : A -> result B) : result B :=
  match r with
  | Ok a => k a
  | Throw message => Throw message
  end.

Notation "r ;; k" := (bind r (fun _ => k)) (at level 61, right associativity).

(** Modelled from the spec: [Debug.assert], which is defined outside the
    files embedded here.  A failed assertion "fails fast": it aborts the call
    with its message. *)
Definition Debug_assert (value : bool) (message : string) : result unit :=
  if value then Ok tt else Throw message.

(** ** Geometry and textures *)

Module Rectangle.

Record t : Type := mk { x : Js.number; y : Js.number; width : Js.number; height : Js.number }.

(** [new Rectangle()] *)
Definition new : t := mk 0%float 0%float 0%float 0%float.

End Rectangle.

(** The six components [m.value[0] .. m.value[5]] of a matrix:
    a, b, c, d, tx, ty. *)
Record Matrix : Type := mkMatrix {
  v0 : Js.number; v1 : Js.number; v2 : Js.number;
  v3 : Js.number; v4 : Js.number; v5 : Js.number }.

Definition components (m : Matrix) : list Js.number :=
  [v0 m; v1 m; v2 m; v3 m; v4 m; v5 m].

(** Some component is [NaN]. *)
Definition hasNaN (m : Matrix) : bool := existsb Js.isNaN (components m).

(** Some component is non-finite: [NaN], [+Infinity] or [-Infinity]. *)
Definition hasNonFinite (m : Matrix) : bool :=
  existsb (fun c => negb (is_finite c)) (components m).

Module Texture.

Record t : Type := mk {
  native : ref;
  region : Rectangle.t;
  untrimmedRegion : Rectangle.t;
  renderWidth : Js.number;
  renderHeight : Js.number;
  isValid : bool;
  mSlice9borders : option Rectangle.t;
  registrationPointX : Js.number;
  registrationPointY : Js.number }.

(** The same texture with the origin of its [untrimmedRegion] moved by
    [(ox, oy)]. *)
Definition moveUntrimmed (ox oy : Js.number) (tex : t) : t :=
  mk (native tex) (region tex)
     (Rectangle.mk (Rectangle.x (untrimmedRegion tex) + ox)%float
                   (Rectangle.y (untrimmedRegion tex) + oy)%float
                   (Rectangle.width (untrimmedRegion tex))
                   (Rectangle.height (untrimmedRegion tex)))
     (renderWidth tex) (renderHeight tex) (isValid tex)
     (mSlice9borders tex) (registrationPointX tex) (registrationPointY tex).

End Texture.

(** ** Constants taken from elsewhere in the engine *)

(** The two [DirtyFlag] constants that [onRender] and the setters use. *)
Module DirtyFlag.

Class t : Type := mk { RENDER : Z; RENDER_CACHE : Z }.

(** Each constant is one bit of a 32-bit mask, and the two differ. *)
Definition independent_bits (F : t) : Prop :=
  exists i j : Z,
    0 <= i < 31 /\ 0 <= j < 31 /\ i <> j /\
    @RENDER F = 2 ^ i /\ @RENDER_CACHE F = 2 ^ j.

End DirtyFlag.

(** The [BlendMode] identifiers that the code and the specification name. *)
Module BlendMode.

Class t : Type := mk { AUTO : string; MULTIPLY : string }.

End BlendMode.

(** ** Display nodes and their renderers *)

Module Renderer.

(** The fields of a node's renderer that [onRender] writes. *)
Record t : Type := mk {
  transform : Matrix;
  alpha : Js.number;
  blendMode : string;
  visible : bool;
  dirty : Z;
  text : string;
  data : ref;
  multiline : bool;
  lineHeight : Js.number;
  fieldWidth : Js.number;
  fieldHeight : Js.number;
  autoSize : bool;
  bounds : Rectangle.t }.

Definition set_sync (m : Matrix) (a : Js.number) (b : string) (v : bool) (r : t) : t :=
  mk m a b v (dirty r) (text r) (data r) (multiline r) (lineHeight r)
     (fieldWidth r) (fieldHeight r) (autoSize r) (bounds r).

Definition set_cache (txt : string) (d : ref) (ml : bool) (lh fw fh : Js.number)
    (az : bool) (r : t) : t :=
  mk (transform r) (alpha r) (blendMode r) (visible r) (dirty r)
     txt d ml lh fw fh az (bounds r).

Definition set_bounds (b : Rectangle.t) (r : t) : t :=
  mk (transform r) (alpha r) (blendMode r) (visible r) (dirty r) (text r)
     (data r) (multiline r) (lineHeight r) (fieldWidth r) (fieldHeight r)
     (autoSize r) b.

Definition set_dirty (d : Z) (r : t) : t :=
  mk (transform r) (alpha r) (blendMode r) (visible r) d (text r)
     (data r) (multiline r) (lineHeight r) (fieldWidth r) (fieldHeight r)
     (autoSize r) (bounds r).

End Renderer.

Module DisplayObject.

(** The state a display node inherits from [DisplayObject].
    [finalTransformation] is the value its getter of that name returns. *)
Record t : Type := mk {
  mDirty : Z;
  mAlpha : Js.number;
  mBlendMode : string;
  mVisible : bool;
  finalTransformation : Matrix;
  mRenderer : Renderer.t }.

Definition set_mDirty (d : Z) (o : t) : t :=
  mk d (mAlpha o) (mBlendMode o) (mVisible o) (finalTransformation o) (mRenderer o).

Definition set_mRenderer (r : Renderer.t) (o : t) : t :=
  mk (mDirty o) (mAlpha o) (mBlendMode o) (mVisible o) (finalTransformation o) r.

(** Modelled from the spec: [setDirty(flag, includeChildren)], which is
    defined outside the files embedded here, ORs the flags into the node's
    mask.  The setters below only call it with [includeChildren = false];
    children are not part of this model. *)
Definition setDirty (flag : Z) (o : t) : t :=
  set_mDirty (Js.bitor (mDirty o) flag) o.

(** Modelled from the spec: [setRenderDirty()], which is defined outside
    the files embedded here, marks [RENDER] on the node. *)
Definition setRenderDirty {F : DirtyFlag.t} (o : t) : t :=
  setDirty DirtyFlag.RENDER o.

(** The setters [anchorX] and [anchorY] of [DisplayObject], called by
    [Sprite]'s texture setter but defined elsewhere. *)
Class Anchors : Type := mkAnchors {
  set_anchorX : Js.number -> t -> t;
  set_anchorY : Js.number -> t -> t }.

End DisplayObject.

(** [AssetManager.default.getTexture], defined elsewhere: the texture
    registered under a name, or [null] ([None]). *)
Class Assets : Type := mkAssets { getTexture : option string -> option ref }.

Module Sprite.

Section WithEnv.

Context {F : DirtyFlag.t} {A : DisplayObject.Anchors}.

(** The textures live in a store; a sprite holds a reference into it. *)
Variable textures : ref -> Texture.t.

Record t : Type := mk {
  super : DisplayObject.t;
  mTexture : option ref;
  mTextureName : option string;
  mTiling : option ref;
  mSlice9grid : option Rectangle.t }.

Definition set_super (o : DisplayObject.t) (s : t) : t :=
  mk o (mTexture s) (mTextureName s) (mTiling s) (mSlice9grid s).

(** [get texture()] *)
Definition texture (s : t) : option ref := mTexture s.

(** [set tiling(value)] *)
Definition set_tiling (value : option ref) (s : t) : t :=
  let s := mk (super s) (mTexture s) (mTextureName s) value (mSlice9grid s) in
  let s := set_super (DisplayObject.setRenderDirty (super s)) s in
  set_super (DisplayObject.setDirty DirtyFlag.RENDER_CACHE (super s)) s.

(** [set slice9grid(value)] *)
Definition set_slice9grid (value : option Rectangle.t) (s : t) : t :=
  let s := mk (super s) (mTexture s) (mTextureName s) (mTiling s) value in
  let s := set_super (DisplayObject.setRenderDirty (super s)) s in
  set_super (DisplayObject.setDirty DirtyFlag.RENDER_CACHE (super s)) s.

(** [set texture(texture)].  Reading a property of [null] throws. *)
Definition set_texture (texture : option ref) (s : t) : result t :=
  if ref_eqb (mTexture s) texture then Ok s
  else
    let s := mk (super s) texture (mTextureName s) (mTiling s) (mSlice9grid s) in
    match texture with
    | None => Throw "TypeError"
    | Some p =>
        let tex := textures p in
        let s :=
          match Texture.mSlice9borders tex with
          | Some borders => set_slice9grid (Some borders) s
          | None => s
          end in
        let s := set_super (DisplayObject.set_anchorX (Texture.registrationPointX tex) (super s)) s in
        let s := set_super (DisplayObject.set_anchorY (Texture.registrationPointY tex) (super s)) s in
        let s := set_super (DisplayObject.setDirty DirtyFlag.RENDER_CACHE (super s)) s in
        Ok (set_super (DisplayObject.setRenderDirty (super s)) s)
    end.

Context {G : Assets}.

(** [===] between two texture names, each a string or [null]. *)
Definition name_eqb (u v : option string) : bool :=
  match u, v with
  | None, None => true
  | Some a, Some b => String.eqb a b
  | _, _ => false
  end.

(** [get textureName()] *)
Definition textureName (s : t) : option string := mTextureName s.

(** [set textureName(value)] *)
Definition set_textureName (value : option string) (s : t) : result t :=
  if name_eqb (mTextureName s) value then Ok s
  else
    let s := mk (super s) (mTexture s) value (mTiling s) (mSlice9grid s) in
    set_texture (getTexture value) s.

(** The argument of the constructor: a texture name, or a texture
    reference or [null]. *)
Inductive TextureArg : Type :=
| ByName (name : string)
| ByTexture (texture : option ref).

(** [constructor(texture = null)].  [base] is the node as [super()]
    leaves it. *)
Definition new (base : DisplayObject.t) (texture : TextureArg) : result t :=
  let s := mk base None None None None in
  match texture with
  | ByName name =>
      let s := mk (super s) (mTexture s) (Some name) (mTiling s) (mSlice9grid s) in
      set_texture (getTexture (Some name)) s
  | ByTexture texture => set_texture texture s
  end.

End WithEnv.

End Sprite.

(** What [BitmapTextField] uses of its collaborators: the renderer's
    [isRenderable] getter and [TextMetricsEx.measureBitmap], which writes the
    measured bounds into the rectangle it is given (here: returns them). *)
Class TextCollaborators : Type := mkTextCollaborators {
  isRenderable : Renderer.t -> bool;
  measureBitmap : string -> ref -> Js.number -> Rectangle.t -> Rectangle.t }.

Module BitmapTextField.

(** [text.replace(/\n/g, '')] *)
Fixpoint removeNewlines (s : string) : string :=
  match s with
  | EmptyString => EmptyString
  | String c rest =>
      if Ascii.eqb c "010"%char then removeNewlines rest
      else String c (removeNewlines rest)
  end.

Record t : Type := mk {
  super : DisplayObject.t;
  mData : ref;
  mText : string;
  mAutoSize : bool;
  mMultiline : bool;
  mLineHeight : Js.number;
  mBounds : Rectangle.t;
  mTextBounds : Rectangle.t;
  mFieldWidth : Js.number;
  mFieldHeight : Js.number }.

Definition set_super (o : DisplayObject.t) (n : t) : t :=
  mk o (mData n) (mText n) (mAutoSize n) (mMultiline n) (mLineHeight n)
     (mBounds n) (mTextBounds n) (mFieldWidth n) (mFieldHeight n).

Definition set_mTextBounds (b : Rectangle.t) (n : t) : t :=
  mk (super n) (mData n) (mText n) (mAutoSize n) (mMultiline n) (mLineHeight n)
     (mBounds n) b (mFieldWidth n) (mFieldHeight n).

Definition mDirty (n : t) : Z := DisplayObject.mDirty (super n).
Definition mRenderer (n : t) : Renderer.t := DisplayObject.mRenderer (super n).

Definition set_mDirty (d : Z) (n : t) : t :=
  set_super (DisplayObject.set_mDirty d (super n)) n.

Definition set_mRenderer (r : Renderer.t) (n : t) : t :=
  set_super (DisplayObject.set_mRenderer r (super n)) n.

Definition setDirty (flag : Z) (n : t) : t :=
  set_super (DisplayObject.setDirty flag (super n)) n.

(** [get text()] *)
Definition text (n : t) : string := mText n.

Section WithEnv.

Context {F : DirtyFlag.t} {B : BlendMode.t} {C : TextCollaborators}.

(** [onGetLocalBounds(outRect = undefined)]: the node with its text bounds
    measured again when [RENDER_CACHE] is set, and the rectangle returned. *)
Definition onGetLocalBounds (outRect : option Rectangle.t) (n : t) : t * Rectangle.t :=
  let outRect := match outRect with Some r => r | None => Rectangle.new end in
  let n :=
    if Js.truthy (Js.bitand (mDirty n) DirtyFlag.RENDER_CACHE) then
      let txt := text n in
      let txt := if Bool.eqb (mMultiline n) false then removeNewlines txt else txt in
      set_mTextBounds (measureBitmap txt (mData n) (mLineHeight n) (mTextBounds n)) n
    else n in
  let outRect :=
    if Bool.eqb (mAutoSize n) false then
      Rectangle.mk (Rectangle.x outRect) (Rectangle.y outRect) (mFieldWidth n) (mFieldHeight n)
    else
      Rectangle.mk (Rectangle.x outRect) (Rectangle.y outRect)
        (Rectangle.width (mTextBounds n)) (Rectangle.height (mTextBounds n)) in
  (n, outRect).

(** The first block of [onRender]: [if (this.mDirty & DirtyFlag.RENDER)]. *)
Definition syncRender (parentRenderer : Renderer.t) (n : t) : t :=
  if Js.truthy (Js.bitand (mDirty n) DirtyFlag.RENDER) then
    let renderer :=
      Renderer.set_sync
        (DisplayObject.finalTransformation (super n))
        (DisplayObject.mAlpha (super n) * Renderer.alpha parentRenderer)%float
        (if String.eqb (DisplayObject.mBlendMode (super n)) BlendMode.AUTO
         then Renderer.blendMode parentRenderer
         else DisplayObject.mBlendMode (super n))
        (DisplayObject.mVisible (super n))
        (mRenderer n) in
    let n := set_mRenderer renderer n in
    set_mDirty (Js.bitxor (mDirty n) DirtyFlag.RENDER) n
  else n.

(** The assignments to the renderer at the head of the second block of
    [onRender], up to [renderer.bounds = this.onGetLocalBounds()]. *)
Definition rebuildCache (n : t) : t :=
  let renderer :=
    Renderer.set_cache (text n) (mData n) (mMultiline n) (mLineHeight n)
      (mFieldWidth n) (mFieldHeight n) (mAutoSize n) (mRenderer n) in
  let n := set_mRenderer renderer n in
  let (n, outRect) := onGetLocalBounds None n in
  set_mRenderer (Renderer.set_bounds outRect (mRenderer n)) n.

(** The second block of [onRender]:
    [if (this.mDirty & DirtyFlag.RENDER_CACHE)]. *)
Definition syncRenderCache (n : t) : t :=
  if Js.truthy (Js.bitand (mDirty n) DirtyFlag.RENDER_CACHE) then
    let n := rebuildCache n in
    if Bool.eqb (isRenderable (mRenderer n)) true then
      set_mDirty (Js.bitxor (mDirty n) DirtyFlag.RENDER_CACHE) n
    else n
  else n.

(** [onRender(driver, parentRenderer)].  Of the driver only
    [registerRenderer] is used; its result is what [onRender] returns. *)
Definition onRender {R : Type} (registerRenderer : Renderer.t -> R)
    (parentRenderer : Renderer.t) (n : t) : t * R :=
  let oldDirty := mDirty n in
  let n := syncRender parentRenderer n in
  let n := syncRenderCache n in
  let n := set_mRenderer (Renderer.set_dirty oldDirty (mRenderer n)) n in
  (n, registerRenderer (mRenderer n)).

(** The flags that one call of [onRender] services on [n]: [RENDER] when
    the first block runs, [RENDER_CACHE] when the second block runs and finds
    the renderer renderable. *)
Definition serviced (parentRenderer : Renderer.t) (n : t) : Z :=
  let n1 := syncRender parentRenderer n in
  Z.lor
    (if Js.truthy (Js.bitand (mDirty n) DirtyFlag.RENDER)
     then DirtyFlag.RENDER else 0)
    (if Js.truthy (Js.bitand (mDirty n1) DirtyFlag.RENDER_CACHE)
        && isRenderable (mRenderer (rebuildCache n1))
     then DirtyFlag.RENDER_CACHE else 0).

(** [set multiline(value)] *)
Definition set_multiline (value : bool) (n : t) : t :=
  let n := mk (super n) (mData n) (mText n) (mAutoSize n) value
             (mLineHeight n) (mBounds n) (mTextBounds n) (mFieldWidth n) (mFieldHeight n) in
  setDirty DirtyFlag.RENDER_CACHE n.

(** [set lineHeight(value)] *)
Definition set_lineHeight (value : Js.number) (n : t) : t :=
  let n := mk (super n) (mData n) (mText n) (mAutoSize n) (mMultiline n)
             value (mBounds n) (mTextBounds n) (mFieldWidth n) (mFieldHeight n) in
  setDirty DirtyFlag.RENDER_CACHE n.

(** [set fieldWidth(value)] *)
Definition set_fieldWidth (value : Js.number) (n : t) : t :=
  if Js.num_eq value (mFieldWidth n) then n
  else
    let n := mk (super n) (mData n) (mText n) (mAutoSize n) (mMultiline n)
               (mLineHeight n) (mBounds n) (mTextBounds n) value (mFieldHeight n) in
    setDirty DirtyFlag.RENDER_CACHE n.

(** [set fieldHeight(value)] *)
Definition set_fieldHeight (value : Js.number) (n : t) : t :=
  if Js.num_eq value (mFieldHeight n) then n
  else
    let n := mk (super n) (mData n) (mText n) (mAutoSize n) (mMultiline n)
               (mLineHeight n) (mBounds n) (mTextBounds n) (mFieldWidth n) value in
    setDirty DirtyFlag.RENDER_CACHE n.

(** [set text(value)] *)
Definition set_text (value : string) (n : t) : t :=
  if String.eqb (mText n) value then n
  else
    let n := mk (super n) (mData n) value (mAutoSize n) (mMultiline n)
               (mLineHeight n) (mBounds n) (mTextBounds n) (mFieldWidth n) (mFieldHeight n) in
    setDirty DirtyFlag.RENDER_CACHE n.

(** [set autoSize(value)] *)
Definition set_autoSize (value : bool) (n : t) : t :=
  if Bool.eqb (mAutoSize n) value then n
  else
    let n := mk (super n) (mData n) (mText n) value (mMultiline n)
               (mLineHeight n) (mBounds n) (mTextBounds n) (mFieldWidth n) (mFieldHeight n) in
    setDirty DirtyFlag.RENDER_CACHE n.

(** Modelled from the spec: the traversal that calls [onRender], which is
    defined outside the files embedded here.  Nodes are visited parent first, and a
    node's renderer is the [parentRenderer] of its child.  [chain] lists a
    root-to-leaf path; the result lists the same nodes after the visit. *)
Fixpoint renderChain {R : Type} (registerRenderer : Renderer.t -> R)
    (parentRenderer : Renderer.t) (chain : list t) : list t :=
  match chain with
  | [] => []
  | n :: rest =>
      let n' := fst (onRender registerRenderer parentRenderer n) in
      n' :: renderChain registerRenderer (mRenderer n') rest
  end.

End WithEnv.

End BitmapTextField.

(** ** The canvas video driver *)

Module CanvasDriver.

(** What the driver does to its 2D context [mCtx] and to the context's
    canvas: method calls and property writes. *)
Inductive CanvasCall : Type :=
| drawImage (image : ref) (sx sy sw sh dx dy dw dh : Js.number)
| ctx_setTransform (a b c d e f : Js.number)
| ctx_globalAlpha (value : Js.number)
| ctx_globalCompositeOperation (value : JsStr)
| ctx_save
| ctx_beginPath
| ctx_rect (x y w h : Js.number)
| ctx_clip
| ctx_restore
| canvas_width (value : Js.number)
| canvas_height (value : Js.number)
| canvas_style_width (px : Js.number)
| canvas_style_height (px : Js.number).

(** The driver's fields.  [mCtx] is the context, seen as the calls it has
    received so far, oldest first. *)
Record t : Type := mk {
  mCtx : list CanvasCall;
  mStageScaleFactor : Js.number;
  mClientWidth : Js.number;
  mClientHeight : Js.number;
  mSnapToPixels : bool;
  mTransform : option Matrix;
  mGlobalAlpha : Js.number;
  mGlobalBlendMode : JsStr }.

Definition call (c : CanvasCall) (d : t) : t :=
  mk (mCtx d ++ [c]) (mStageScaleFactor d) (mClientWidth d) (mClientHeight d)
     (mSnapToPixels d) (mTransform d) (mGlobalAlpha d) (mGlobalBlendMode d).

Definition set_mTransform (m : Matrix) (d : t) : t :=
  mk (mCtx d) (mStageScaleFactor d) (mClientWidth d) (mClientHeight d)
     (mSnapToPixels d) (Some m) (mGlobalAlpha d) (mGlobalBlendMode d).

Definition set_mGlobalAlpha (value : Js.number) (d : t) : t :=
  mk (mCtx d) (mStageScaleFactor d) (mClientWidth d) (mClientHeight d)
     (mSnapToPixels d) (mTransform d) value (mGlobalBlendMode d).

Definition set_mGlobalBlendMode (value : JsStr) (d : t) : t :=
  mk (mCtx d) (mStageScaleFactor d) (mClientWidth d) (mClientHeight d)
     (mSnapToPixels d) (mTransform d) (mGlobalAlpha d) value.

(** What the driver takes from elsewhere: the table [CanvasBlendMode]
    (a key that is not in it reads as [undefined], here [None]) and the
    [__onResize] it inherits from [VideoNullDriver]. *)
Class Environment : Type := mkEnvironment {
  CanvasBlendMode : string -> option string;
  Message : Type;
  super__onResize : Message -> Rectangle.t -> t -> t }.

Section WithEnv.

Context {B : BlendMode.t} {E : Environment}.

(** [__onResize(msg, rect)] *)
Definition __onResize (msg : Message) (rect : Rectangle.t) (d : t) : t :=
  let d := super__onResize msg rect d in
  let d := set_mGlobalBlendMode Null d in
  let d := set_mGlobalAlpha (-1)%float d in
  let scale := mStageScaleFactor d in
  let d := call (canvas_width (mClientWidth d * scale)%float) d in
  let d := call (canvas_height (mClientHeight d * scale)%float) d in
  let d := call (canvas_style_width (mClientWidth d)) d in
  call (canvas_style_height (mClientHeight d)) d.

(** [drawTexture(texture)] *)
Definition drawTexture (texture : Texture.t) (d : t) : result t :=
  if Bool.eqb (Texture.isValid texture) false then Ok d
  else
    let scale := mStageScaleFactor d in
    let sourceX := Rectangle.x (Texture.region texture) in
    let sourceY := Rectangle.y (Texture.region texture) in
    let sourceWidth := Rectangle.width (Texture.region texture) in
    let sourceHeight := Rectangle.height (Texture.region texture) in
    let destX := (Rectangle.x (Texture.untrimmedRegion texture) * scale)%float in
    let destY := (Rectangle.y (Texture.untrimmedRegion texture) * scale)%float in
    let destWidth := (Texture.renderWidth texture * scale)%float in
    let destHeight := (Texture.renderHeight texture * scale)%float in
    Ok (call (drawImage (Texture.native texture) sourceX sourceY sourceWidth sourceHeight
                destX destY destWidth destHeight) d).

(** [drawTextureWithOffset(texture, ox, oy)] *)
Definition drawTextureWithOffset (texture : Texture.t) (ox oy : Js.number) (d : t) : result t :=
  if Bool.eqb (Texture.isValid texture) false then Ok d
  else
    let scale := mStageScaleFactor d in
    let sourceX := Rectangle.x (Texture.region texture) in
    let sourceY := Rectangle.y (Texture.region texture) in
    let sourceWidth := Rectangle.width (Texture.region texture) in
    let sourceHeight := Rectangle.height (Texture.region texture) in
    let destX := ((ox + Rectangle.x (Texture.untrimmedRegion texture)) * scale)%float in
    let destY := ((oy + Rectangle.y (Texture.untrimmedRegion texture)) * scale)%float in
    let destWidth := (Texture.renderWidth texture * scale)%float in
    let destHeight := (Texture.renderHeight texture * scale)%float in
    Ok (call (drawImage (Texture.native texture) sourceX sourceY sourceWidth sourceHeight
                destX destY destWidth destHeight) d).

(** [beginClip(clipRect, px, py)] *)
Definition beginClip (clipRect : Rectangle.t) (px py : Js.number) (d : t) : t :=
  let r := mStageScaleFactor d in
  let d := call ctx_save d in
  let d := call ctx_beginPath d in
  let d := call (ctx_rect ((Rectangle.x clipRect + px) * r)%float
                          ((Rectangle.y clipRect + py) * r)%float
                          (Rectangle.width clipRect * r)%float
                          (Rectangle.height clipRect * r)%float) d in
  call ctx_clip d.

(** [endClip()] *)
Definition endClip (d : t) : t := call ctx_restore d.

(** [setTransform(m)] *)
Definition setTransform (m : Matrix) (d : t) : result t :=
  Debug_assert (negb (Js.isNaN (v0 m))) "a-element cannot be NaN" ;;
  Debug_assert (negb (Js.isNaN (v1 m))) "b-element cannot be NaN" ;;
  Debug_assert (negb (Js.isNaN (v2 m))) "c-element cannot be NaN" ;;
  Debug_assert (negb (Js.isNaN (v3 m))) "d-element cannot be NaN" ;;
  Debug_assert (negb (Js.isNaN (v4 m))) "tx-element cannot be NaN" ;;
  Debug_assert (negb (Js.isNaN (v5 m))) "ty-element cannot be NaN" ;;
  let d := set_mTransform m d in
  let scale := mStageScaleFactor d in
  if Bool.eqb (mSnapToPixels d) true then
    Ok (call (ctx_setTransform (v0 m) (v1 m) (v2 m) (v3 m)
                (Js.or0 (v4 m * scale)%float) (Js.or0 (v5 m * scale)%float)) d)
  else
    Ok (call (ctx_setTransform (v0 m) (v1 m) (v2 m) (v3 m)
                (v4 m * scale)%float (v5 m * scale)%float) d).

(** [set globalAlpha(value)] *)
Definition set_globalAlpha (value : Js.number) (d : t) : t :=
  if Js.num_eq value (mGlobalAlpha d) then d
  else
    let d := set_mGlobalAlpha value d in
    call (ctx_globalAlpha value) d.

(** [set globalBlendMode(blendMode)] *)
Definition set_globalBlendMode (blendMode : string) (d : t) : t :=
  if String.eqb blendMode BlendMode.AUTO then d
  else
    let blendMode :=
      match CanvasBlendMode blendMode with
      | Some s => Str s
      | None => Undefined
      end in
    if JsStr_eqb (mGlobalBlendMode d) blendMode then d
    else
      let d := set_mGlobalBlendMode blendMode d in
      call (ctx_globalCompositeOperation blendMode) d.

End WithEnv.

End CanvasDriver.

(** ** Tweens: starting, pausing and stopping *)

Module Tween.

(** The fields of a tween.  The values being tweened, the start values,
    the properties object, the interpolation and the ease are objects the
    methods below only store: they are held by reference. *)
Record t : Type := mk {
  mValues : ref;
  mDuration : Js.number;
  mProperties : option ref;
  mIsPlaying : bool;
  mIsPaused : bool;
  mStartTime : Js.number;
  mPausedTime : Js.number;
  mValuesStart : ref;
  mElapsed : Js.number;
  mInterpolation : ref;
  mDelay : Js.number;
  mRepeatTimes : Js.number;
  mInitiated : bool;
  mStarted : bool;
  mReverse : bool;
  mRemoveOnComplete : bool;
  mPlayOnAdded : bool;
  mEase : ref }.

Definition set_mIsPlaying (v : bool) (w : t) : t :=
  mk (mValues w) (mDuration w) (mProperties w) v (mIsPaused w) (mStartTime w)
     (mPausedTime w) (mValuesStart w) (mElapsed w) (mInterpolation w) (mDelay w)
     (mRepeatTimes w) (mInitiated w) (mStarted w) (mReverse w)
     (mRemoveOnComplete w) (mPlayOnAdded w) (mEase w).

Definition set_mIsPaused (v : bool) (w : t) : t :=
  mk (mValues w) (mDuration w) (mProperties w) (mIsPlaying w) v (mStartTime w)
     (mPausedTime w) (mValuesStart w) (mElapsed w) (mInterpolation w) (mDelay w)
     (mRepeatTimes w) (mInitiated w) (mStarted w) (mReverse w)
     (mRemoveOnComplete w) (mPlayOnAdded w) (mEase w).

Definition set_mStartTime (v : Js.number) (w : t) : t :=
  mk (mValues w) (mDuration w) (mProperties w) (mIsPlaying w) (mIsPaused w) v
     (mPausedTime w) (mValuesStart w) (mElapsed w) (mInterpolation w) (mDelay w)
     (mRepeatTimes w) (mInitiated w) (mStarted w) (mReverse w)
     (mRemoveOnComplete w) (mPlayOnAdded w) (mEase w).

Definition set_mPausedTime (v : Js.number) (w : t) : t :=
  mk (mValues w) (mDuration w) (mProperties w) (mIsPlaying w) (mIsPaused w)
     (mStartTime w) v (mValuesStart w) (mElapsed w) (mInterpolation w) (mDelay w)
     (mRepeatTimes w) (mInitiated w) (mStarted w) (mReverse w)
     (mRemoveOnComplete w) (mPlayOnAdded w) (mEase w).

Definition set_mElapsed (v : Js.number) (w : t) : t :=
  mk (mValues w) (mDuration w) (mProperties w) (mIsPlaying w) (mIsPaused w)
     (mStartTime w) (mPausedTime w) (mValuesStart w) v (mInterpolation w) (mDelay w)
     (mRepeatTimes w) (mInitiated w) (mStarted w) (mReverse w)
     (mRemoveOnComplete w) (mPlayOnAdded w) (mEase w).

Definition set_mRepeatTimes (v : Js.number) (w : t) : t :=
  mk (mValues w) (mDuration w) (mProperties w) (mIsPlaying w) (mIsPaused w)
     (mStartTime w) (mPausedTime w) (mValuesStart w) (mElapsed w) (mInterpolation w)
     (mDelay w) v (mInitiated w) (mStarted w) (mReverse w)
     (mRemoveOnComplete w) (mPlayOnAdded w) (mEase w).

(** [set delay(value)] *)
Definition set_delay (value : Js.number) (w : t) : t :=
  mk (mValues w) (mDuration w) (mProperties w) (mIsPlaying w) (mIsPaused w)
     (mStartTime w) (mPausedTime w) (mValuesStart w) (mElapsed w) (mInterpolation w)
     value (mRepeatTimes w) (mInitiated w) (mStarted w) (mReverse w)
     (mRemoveOnComplete w) (mPlayOnAdded w) (mEase w).

(** [__start(t)] *)
Definition __start (t0 : Js.number) (w : t) : t :=
  let w := set_mIsPlaying true w in
  set_mStartTime (t0 + mDelay w) w.

(** [__resume()].  [uptime] is [Black.instance.uptime] at the call. *)
Definition __resume (uptime : Js.number) (w : t) : t :=
  if negb (mIsPaused w) then w
  else
    let w := set_mIsPaused false w in
    set_mStartTime (mStartTime w + (uptime - mPausedTime w)) w.

(** [play()] *)
Definition play (uptime : Js.number) (w : t) : t :=
  if negb (mIsPaused w) then __start uptime w else __resume uptime w.

(** [stop()] *)
Definition stop (w : t) : t :=
  if negb (mIsPlaying w) then w else set_mIsPlaying false w.

(** [reset()] *)
Definition reset (uptime : Js.number) (w : t) : t :=
  let w := set_mElapsed 0 w in
  if mIsPlaying w then play uptime w else w.

(** [to(values, duration)] *)
Definition to (values : ref) (duration : Js.number) (w : t) : t :=
  mk values duration (mProperties w) (mIsPlaying w) (mIsPaused w)
     (mStartTime w) (mPausedTime w) (mValuesStart w) (mElapsed w) (mInterpolation w)
     (mDelay w) (mRepeatTimes w) false (mStarted w) (mReverse w)
     (mRemoveOnComplete w) (mPlayOnAdded w) (mEase w).

(** [pause()] *)
Definition pause (uptime : Js.number) (w : t) : t :=
  if negb (mIsPlaying w) then w
  else
    let w := set_mIsPaused true w in
    set_mPausedTime uptime w.

(** [repeat(times)] *)
Definition repeat (times : Js.number) (w : t) : t := set_mRepeatTimes times w.

(** [loop(value = true)] *)
Definition loop (value : bool) (w : t) : t :=
  set_mRepeatTimes (if value then infinity else 0) w.

(** [onAdded(gameObject)] *)
Definition onAdded (uptime : Js.number) (w : t) : t :=
  if mPlayOnAdded w then __start uptime w else w.

End Tween.

(** ** The specification's wording, for comparison *)

Module Spec.

(** The translation that the specification's text describes for a driver
    with pixel snapping on: the component is snapped to an integer first
    (here by [| 0]) and scaled afterwards. *)
Definition snapThenScale (t scale : Js.number) : Js.number :=
  (Js.or0 t * scale)%float.

(** Alpha inherited down a root-to-leaf path: each node's own alpha times
    the effective alpha of the node above it. *)
Fixpoint inheritedAlphas (parent : Js.number) (alphas : list Js.number) : list Js.number :=
  match alphas with
  | [] => []
  | a :: rest =>
      let effective := (a * parent)%float in
      effective :: inheritedAlphas effective rest
  end.

(** Negative zero, the one number that adding [0] changes. *)
Definition isNegativeZero (x : Js.number) : bool := is_zero x && get_sign x.

End Spec.

(** ** Concrete instances, for running the definitions *)

Module Sample.

Definition flags : DirtyFlag.t := DirtyFlag.mk 8 16.

Definition blend : BlendMode.t := BlendMode.mk "auto" "multiply".

(** A renderer that can draw as soon as it has some text; text bounds of
    eight units per character, one line high. *)
Definition collaborators : TextCollaborators :=
  mkTextCollaborators
    (fun r => negb (String.eqb (Renderer.text r) ""))
    (fun txt _ lh out =>
       Rectangle.mk (Rectangle.x out) (Rectangle.y out)
         (of_uint63 (Uint63.of_Z (8 * Z.of_nat (String.length txt)))) lh).

Definition anchors : DisplayObject.Anchors :=
  DisplayObject.mkAnchors (fun _ o => o) (fun _ o => o).

Definition environment : CanvasDriver.Environment :=
  CanvasDriver.mkEnvironment
    (fun k =>
       if String.eqb k "normal" then Some "source-over"
       else if String.eqb k "add" then Some "lighter"
       else if String.eqb k "multiply" then Some "multiply"
       else None)
    unit
    (fun _ rect d =>
       CanvasDriver.mk (CanvasDriver.mCtx d) (CanvasDriver.mStageScaleFactor d)
         (Rectangle.width rect) (Rectangle.height rect)
         (CanvasDriver.mSnapToPixels d) (CanvasDriver.mTransform d)
         (CanvasDriver.mGlobalAlpha d) (CanvasDriver.mGlobalBlendMode d)).

Definition identity : Matrix := mkMatrix 1 0 0 1 0 0.

Definition renderer : Renderer.t :=
  Renderer.mk identity 1 "normal" true 0 "" 1%positive false 1.2 0 0 true Rectangle.new.

(** A text field as its constructor leaves it, with the given mask, alpha
    and text. *)
Definition field (dirty : Z) (alpha : Js.number) (txt : string) : BitmapTextField.t :=
  BitmapTextField.mk
    (DisplayObject.mk dirty alpha "auto" true identity renderer)
    1%positive txt true false 1.2 Rectangle.new Rectangle.new 0 0.

(** A text field whose width and height are [NaN], with a clean mask. *)
Definition nanField : BitmapTextField.t :=
  BitmapTextField.mk
    (DisplayObject.mk 0 1 "auto" true identity renderer)
    1%positive "" true false 1.2 Rectangle.new Rectangle.new nan nan.

Definition sprite (dirty : Z) (tex : option ref) : Sprite.t :=
  Sprite.mk (DisplayObject.mk dirty 1 "auto" true identity renderer) tex None None None.

Definition texture (valid : bool) : Texture.t :=
  Texture.mk 7%positive (Rectangle.mk 32 64 30 20) (Rectangle.mk 1 2 32 24)
    32 24 valid None 0 0.

Definition textures : ref -> Texture.t := fun _ => texture true.

(** A driver on a 640 by 480 viewport at device scale 2. *)
Definition driver (snap : bool) : CanvasDriver.t :=
  CanvasDriver.mk [] 2 640 480 snap None 1 (Str "source-over").

(** The text "ab", a line feed, "cd". *)
Definition twoLines : string := String.append "ab" (String "010"%char "cd").

(** An asset manager that knows the textures "hero" (7) and "coin" (9). *)
Definition assets : Assets :=
  mkAssets (fun name =>
    match name with
    | Some k =>
        if String.eqb k "hero" then Some 7%positive
        else if String.eqb k "coin" then Some 9%positive
        else None
    | None => None
    end).

(** A tween as its constructor leaves it, with a delay of half a second,
    then started at the given time. *)
Definition tween (startedAt : Js.number) : Tween.t :=
  Tween.__start startedAt
    (Tween.mk 1%positive 0.25 None false false 0 0 2%positive 0 3%positive 0.5 0
       false false false true true 4%positive).

End Sample.

(** * Properties *)

(** ** [x | 0] on some numbers *)

Example or0_truncates : Js.or0 1.5 = 1%float /\ Js.or0 (-2.75) = (-2)%float.
Proof. split; reflexivity. Qed.

Example or0_of_nan_and_infinity : Js.or0 nan = 0%float /\ Js.or0 infinity = 0%float.
Proof. split; reflexivity. Qed.

Example or0_wraps :
  Js.or0 4294967298.5 = 2%float /\ Js.or0 2147483648 = (-2147483648)%float.
Proof. split; reflexivity. Qed.

(** ** Bit-level facts about [ToInt32] *)

Lemma wrap32_range (z : Z) : - 2 ^ 31 <= Js.wrap32 z < 2 ^ 31.
Proof.
  unfold Js.wrap32.
  pose proof (Z.mod_pos_bound (z + 2 ^ 31) (2 ^ 32) ltac:(lia)). lia.
Qed.

Lemma wrap32_small (z : Z) : - 2 ^ 31 <= z < 2 ^ 31 -> Js.wrap32 z = z.
Proof.
  intros H. unfold Js.wrap32. rewrite Z.mod_small; lia.
Qed.

Lemma wrap32_low (z k : Z) :
  0 <= k < 32 -> Z.testbit (Js.wrap32 z) k = Z.testbit z k.
Proof.
  intros Hk.
  rewrite <- (Z.mod_pow2_bits_low (Js.wrap32 z) 32 k) by lia.
  rewrite <- (Z.mod_pow2_bits_low z 32 k) by lia.
  f_equal. unfold Js.wrap32.
  pose proof (Z.div_mod (z + 2 ^ 31) (2 ^ 32) ltac:(lia)) as E.
  replace ((z + 2 ^ 31) mod 2 ^ 32 - 2 ^ 31)
    with (z + (- ((z + 2 ^ 31) / 2 ^ 32)) * 2 ^ 32) by lia.
  apply Z.mod_add. lia.
Qed.

(** From bit 31 on, a 32-bit integer repeats its sign. *)
Lemma int32_high (x k : Z) :
  - 2 ^ 31 <= x < 2 ^ 31 -> 31 <= k -> Z.testbit x k = (x <? 0).
Proof.
  intros Hx Hk. destruct (Z.ltb_spec x 0) as [Hneg | Hpos].
  - rewrite <- (Z.lnot_involutive x), Z.lnot_spec by lia.
    rewrite <- (Z.mod_small (Z.lnot x) (2 ^ 31)) by (unfold Z.lnot; lia).
    rewrite Z.mod_pow2_bits_high by lia. reflexivity.
  - rewrite <- (Z.mod_small x (2 ^ 31)) by lia.
    apply Z.mod_pow2_bits_high. lia.
Qed.

(** The bits of [wrap32 z] are those of [z] up to bit 31, which is then
    repeated. *)
Lemma wrap32_spec (z k : Z) :
  0 <= k -> Z.testbit (Js.wrap32 z) k = Z.testbit z (Z.min k 31).
Proof.
  intros Hk. destruct (Z.lt_ge_cases k 31) as [Hlt | Hge].
  - rewrite Z.min_l by lia. apply wrap32_low. lia.
  - rewrite Z.min_r by lia.
    rewrite (int32_high _ k (wrap32_range z) Hge).
    rewrite <- (int32_high _ 31 (wrap32_range z)) by lia.
    apply wrap32_low. lia.
Qed.

Lemma wrap32_idem (z : Z) : Js.wrap32 (Js.wrap32 z) = Js.wrap32 z.
Proof. apply wrap32_small, wrap32_range. Qed.

(** The bitwise operators give 32-bit integers. *)
Lemma bitand_range (a b : Z) : Js.wrap32 (Js.bitand a b) = Js.bitand a b.
Proof. apply wrap32_idem. Qed.

Lemma bitxor_range (a b : Z) : Js.wrap32 (Js.bitxor a b) = Js.bitxor a b.
Proof. apply wrap32_idem. Qed.

Lemma bitor_range (a b : Z) : Js.wrap32 (Js.bitor a b) = Js.bitor a b.
Proof. apply wrap32_idem. Qed.

Lemma min_min_31 (k : Z) : Z.min (Z.min k 31) 31 = Z.min k 31.
Proof. lia. Qed.

Lemma bitand_spec (a b k : Z) :
  0 <= k ->
  Z.testbit (Js.bitand a b) k = Z.testbit a (Z.min k 31) && Z.testbit b (Z.min k 31).
Proof.
  intros Hk. unfold Js.bitand.
  rewrite wrap32_spec, Z.land_spec, !wrap32_spec, min_min_31 by lia. reflexivity.
Qed.

Lemma bitxor_spec (a b k : Z) :
  0 <= k ->
  Z.testbit (Js.bitxor a b) k = xorb (Z.testbit a (Z.min k 31)) (Z.testbit b (Z.min k 31)).
Proof.
  intros Hk. unfold Js.bitxor.
  rewrite wrap32_spec, Z.lxor_spec, !wrap32_spec, min_min_31 by lia. reflexivity.
Qed.

Lemma bitor_spec (a b k : Z) :
  0 <= k ->
  Z.testbit (Js.bitor a b) k = Z.testbit a (Z.min k 31) || Z.testbit b (Z.min k 31).
Proof.
  intros Hk. unfold Js.bitor.
  rewrite wrap32_spec, Z.lor_spec, !wrap32_spec, min_min_31 by lia. reflexivity.
Qed.

Lemma bitnot_spec (a k : Z) :
  0 <= k -> Z.testbit (Js.bitnot a) k = negb (Z.testbit a (Z.min k 31)).
Proof.
  intros Hk. unfold Js.bitnot.
  rewrite wrap32_spec, Z.lnot_spec, wrap32_spec, min_min_31 by lia. reflexivity.
Qed.

(** Testing one flag bit [2^i]: the test is truthy exactly when bit [i] of
    the mask is set. *)
Lemma truthy_bitand_pow2 (d i : Z) :
  0 <= i < 31 -> Js.truthy (Js.bitand d (2 ^ i)) = Z.testbit d i.
Proof.
  intros Hi. unfold Js.truthy.
  destruct (Z.testbit d i) eqn:Hb.
  - apply negb_true_iff, Z.eqb_neq. intros E.
    assert (Hc : Z.testbit (Js.bitand d (2 ^ i)) i = false)
      by (rewrite E; apply Z.bits_0).
    rewrite bitand_spec, Z.min_l, Hb, Z.pow2_bits_true in Hc by lia. discriminate.
  - apply negb_false_iff, Z.eqb_eq, Z.bits_inj'. intros k Hk.
    rewrite Z.bits_0, bitand_spec by lia.
    destruct (Z.eq_dec (Z.min k 31) i) as [-> | Hne].
    + rewrite Hb. reflexivity.
    + rewrite Z.pow2_bits_false by lia. apply andb_false_r.
Qed.

(** ** Facts about binary64 numbers *)

Lemma SFadd_comm (prec emax : Z) (x y : spec_float) :
  SFadd prec emax x y = SFadd prec emax y x.
Proof.
  destruct x as [sx | sx | | sx mx ex], y as [sy | sy | | sy my ey];
    simpl; try reflexivity.
  - destruct sx, sy; reflexivity.
  - destruct sx, sy; reflexivity.
  - rewrite (Z.min_comm ex ey), Z.add_comm. reflexivity.
Qed.

Lemma float_add_comm (x y : float) : (x + y = y + x)%float.
Proof.
  apply Prim2SF_inj. rewrite !add_spec. apply SFadd_comm.
Qed.

(** No number from zero upwards compares equal to [-1]. *)
Lemma nonneg_not_minus_one (x : float) :
  (0 <=? x)%float = true -> (x =? -1)%float = false.
Proof.
  rewrite leb_spec, eqb_spec.
  replace (Prim2SF 0) with (S754_zero false) by reflexivity.
  replace (Prim2SF (-1)) with (S754_finite true 4503599627370496 (-52))
    by reflexivity.
  unfold SFleb, SFeqb, SFcompare.
  destruct (Prim2SF x) as [[|] | [|] | | [|] m e]; intros H;
    first [ reflexivity | discriminate H ].
Qed.

(** A number is [===] to itself unless it is [NaN]. *)
Lemma num_eq_refl (x : float) : Js.isNaN x = false -> Js.num_eq x x = true.
Proof.
  unfold Js.isNaN, is_nan, Js.num_eq. intros H. now apply negb_false_iff.
Qed.

(** [x | 0] is [ToInt32 x]. *)
Lemma or0_ToInt32 (x : float) : Js.or0 x = Js.ofInt32 (Js.ToInt32 x).
Proof.
  unfold Js.or0. rewrite Z.lor_0_r. unfold Js.ToInt32.
  now rewrite wrap32_idem.
Qed.

(** ** The canvas driver *)

Section DriverProperties.

Import CanvasDriver.

Context {B : BlendMode.t} {E : CanvasDriver.Environment}.

(** C3.  A texture whose [isValid] is false is skipped by both
    [drawTexture] and [drawTextureWithOffset]: the call returns normally
    (no error), and the driver it returns is the driver it was given, so the
    context has received no call and no field has changed. *)
Theorem drawTexture_skips_invalid_texture
    (texture : Texture.t) (ox oy : Js.number) (d : CanvasDriver.t) :
  Texture.isValid texture = false ->
  drawTexture texture d = Ok d /\
  drawTextureWithOffset texture ox oy d = Ok d.
Proof.
  intros Hinvalid. unfold drawTexture, drawTextureWithOffset.
  rewrite Hinvalid. split; reflexivity.
Qed.

(** C9.  For a valid texture, [drawTextureWithOffset(tex, ox, oy)] issues
    the very [drawImage] call that [drawTexture] issues for the texture whose
    untrimmed origin is moved by [(ox, oy)]: same image and source
    rectangle, same destination origin, same destination size. *)
Theorem drawTextureWithOffset_as_moved_drawTexture
    (tex : Texture.t) (ox oy : Js.number) (d : CanvasDriver.t) :
  Texture.isValid tex = true ->
  let scale := mStageScaleFactor d in
  let src := Texture.region tex in
  let image :=
    drawImage (Texture.native tex)
      (Rectangle.x src) (Rectangle.y src) (Rectangle.width src) (Rectangle.height src)
      ((Rectangle.x (Texture.untrimmedRegion tex) + ox) * scale)%float
      ((Rectangle.y (Texture.untrimmedRegion tex) + oy) * scale)%float
      (Texture.renderWidth tex * scale)%float
      (Texture.renderHeight tex * scale)%float in
  drawTextureWithOffset tex ox oy d = Ok (call image d) /\
  drawTexture (Texture.moveUntrimmed ox oy tex) d = Ok (call image d).
Proof.
  intros Hvalid. unfold drawTexture, drawTextureWithOffset. cbn.
  rewrite Hvalid. cbn.
  rewrite (float_add_comm ox), (float_add_comm oy). split; reflexivity.
Qed.

(** What the six assertions of [setTransform] amount to. *)
Lemma setTransform_assertions (m : Matrix) (d : CanvasDriver.t) :
  setTransform m d =
  if hasNaN m then setTransform m d
  else
    let scale := mStageScaleFactor d in
    let d' := set_mTransform m d in
    if mSnapToPixels d then
      Ok (call (ctx_setTransform (v0 m) (v1 m) (v2 m) (v3 m)
                  (Js.or0 (v4 m * scale)) (Js.or0 (v5 m * scale))) d')
    else
      Ok (call (ctx_setTransform (v0 m) (v1 m) (v2 m) (v3 m)
                  (v4 m * scale) (v5 m * scale)) d').
Proof.
  unfold hasNaN, components, setTransform. cbn [existsb].
  destruct (Js.isNaN (v0 m)), (Js.isNaN (v1 m)), (Js.isNaN (v2 m)),
    (Js.isNaN (v3 m)), (Js.isNaN (v4 m)), (Js.isNaN (v5 m)); cbn; try reflexivity.
  destruct (mSnapToPixels d); reflexivity.
Qed.

Lemma setTransform_throws_on_NaN (m : Matrix) (d : CanvasDriver.t) :
  hasNaN m = true -> exists message, setTransform m d = Throw message.
Proof.
  unfold hasNaN, components, setTransform. cbn [existsb].
  destruct (Js.isNaN (v0 m)); [ intros _; eexists; reflexivity | ].
  destruct (Js.isNaN (v1 m)); [ intros _; eexists; reflexivity | ].
  destruct (Js.isNaN (v2 m)); [ intros _; eexists; reflexivity | ].
  destruct (Js.isNaN (v3 m)); [ intros _; eexists; reflexivity | ].
  destruct (Js.isNaN (v4 m)); [ intros _; eexists; reflexivity | ].
  destruct (Js.isNaN (v5 m)); [ intros _; eexists; reflexivity | ].
  discriminate.
Qed.

(** C5, as amended.  [setTransform] fails its assertion, and makes no call
    on the context, whenever a component of the matrix is [NaN].  When no
    component is [NaN] it passes the assertions and applies the transform:
    the context receives one [setTransform] call carrying the matrix's a, b,
    c and d.  The infinities are not [NaN]. *)
Theorem setTransform_asserts_not_NaN (m : Matrix) (d : CanvasDriver.t) :
  (hasNaN m = true -> exists message, setTransform m d = Throw message) /\
  (hasNaN m = false ->
   exists d' e f,
     setTransform m d = Ok d' /\
     mTransform d' = Some m /\
     mCtx d' = mCtx d ++ [ctx_setTransform (v0 m) (v1 m) (v2 m) (v3 m) e f]) /\
  Js.isNaN infinity = false /\ Js.isNaN neg_infinity = false.
Proof.
  split; [ apply setTransform_throws_on_NaN | ].
  split; [ | split; reflexivity ].
  intros Hnan. rewrite setTransform_assertions, Hnan. cbv zeta.
  destruct (mSnapToPixels d); do 3 eexists; repeat split; reflexivity.
Qed.

(** C6, as amended.  With pixel snapping on, the translation that
    [setTransform] passes to the context is [ToInt32] of the scaled
    component: the product [tx * scale] is formed first and then cut to an
    integer.  With pixel snapping off it is the product itself.  The
    components a, b, c and d are passed on untouched either way. *)
Theorem setTransform_snaps_after_scaling (m : Matrix) (d : CanvasDriver.t) :
  hasNaN m = false ->
  let scale := mStageScaleFactor d in
  let translation (t : Js.number) : Js.number :=
    if mSnapToPixels d then Js.ofInt32 (Js.ToInt32 (t * scale)) else (t * scale)%float in
  setTransform m d =
  Ok (call (ctx_setTransform (v0 m) (v1 m) (v2 m) (v3 m)
              (translation (v4 m)) (translation (v5 m)))
           (set_mTransform m d)).
Proof.
  intros Hnan. rewrite setTransform_assertions, Hnan. cbv zeta.
  destruct (mSnapToPixels d); [ rewrite !or0_ToInt32 | ]; reflexivity.
Qed.

(** C4.  [__onResize] leaves [-1] and [null] in the shadow fields.  No
    alpha from zero upwards is [==] to [-1], and no value looked up in
    [CanvasBlendMode] is [null].  So the first [globalAlpha = x] after the
    resize, for every alpha [x] from zero upwards (and indeed every [x]
    other than the sentinel [-1] itself), and the first
    [globalBlendMode = y], for every blend-mode identifier [y] (all of them
    but [AUTO], which stands for "no change" and is turned away before the
    lookup), write to the context, whatever the driver had applied before
    the resize. *)
Theorem resize_resets_shadow_state
    (msg : Message) (rect : Rectangle.t) (d : CanvasDriver.t)
    (x : Js.number) (y : string) :
  Js.num_eq x (-1) = false ->
  String.eqb y BlendMode.AUTO = false ->
  let resized := __onResize msg rect d in
  let op := match CanvasBlendMode y with Some s => Str s | None => Undefined end in
  mGlobalAlpha resized = (-1)%float /\
  mGlobalBlendMode resized = Null /\
  (forall a : Js.number, (0 <=? a)%float = true -> Js.num_eq a (-1) = false) /\
  (forall a : Js.number, (0 <=? a)%float = true ->
     set_globalAlpha a resized = call (ctx_globalAlpha a) (set_mGlobalAlpha a resized)) /\
  op <> Null /\
  set_globalAlpha x resized = call (ctx_globalAlpha x) (set_mGlobalAlpha x resized) /\
  set_globalBlendMode y resized =
    call (ctx_globalCompositeOperation op) (set_mGlobalBlendMode op resized) /\
  mCtx (set_globalBlendMode y (set_globalAlpha x resized)) =
    mCtx resized ++ [ctx_globalAlpha x; ctx_globalCompositeOperation op].
Proof.
  intros Hx Hy resized op.
  assert (Ha : mGlobalAlpha resized = (-1)%float) by reflexivity.
  assert (Hb : mGlobalBlendMode resized = Null) by reflexivity.
  assert (Hop : op <> Null) by (subst op; destruct (CanvasBlendMode y); discriminate).
  assert (Hne : forall r, mGlobalBlendMode r = Null -> JsStr_eqb (mGlobalBlendMode r) op = false).
  { intros r ->. subst op. destruct (CanvasBlendMode y); reflexivity. }
  repeat split; try assumption.
  - exact nonneg_not_minus_one.
  - intros a Hpos.
    assert (Hne1 : Js.num_eq a (-1) = false) by exact (nonneg_not_minus_one a Hpos).
    unfold set_globalAlpha. rewrite Ha, Hne1. reflexivity.
  - unfold set_globalAlpha. rewrite Ha, Hx. reflexivity.
  - unfold set_globalBlendMode. rewrite Hy. fold op. rewrite (Hne _ Hb). reflexivity.
  - unfold set_globalAlpha. rewrite Ha, Hx.
    unfold set_globalBlendMode. rewrite Hy. fold op.
    rewrite Hne by exact Hb. cbn. rewrite <- app_assoc. reflexivity.
Qed.

End DriverProperties.

(** *** The driver on concrete inputs *)

Lemma drawTexture_skips_invalid_texture_witness :
  Texture.isValid (Sample.texture false) = false /\
  CanvasDriver.drawTexture (Sample.texture false) (Sample.driver false)
    = Ok (Sample.driver false) /\
  CanvasDriver.drawTextureWithOffset (Sample.texture false) 10 20 (Sample.driver false)
    = Ok (Sample.driver false).
Proof.
  split; [ reflexivity | ].
  apply drawTexture_skips_invalid_texture. reflexivity.
Defined.

Lemma drawTextureWithOffset_as_moved_drawTexture_witness :
  Texture.isValid (Sample.texture true) = true /\
  CanvasDriver.drawTextureWithOffset (Sample.texture true) 10 20 (Sample.driver false)
    = Ok (CanvasDriver.call (CanvasDriver.drawImage 7%positive 32 64 30 20 22 44 64 48)
            (Sample.driver false)) /\
  CanvasDriver.drawTexture (Texture.moveUntrimmed 10 20 (Sample.texture true))
      (Sample.driver false)
    = Ok (CanvasDriver.call (CanvasDriver.drawImage 7%positive 32 64 30 20 22 44 64 48)
            (Sample.driver false)).
Proof.
  split; [ reflexivity | ].
  exact (drawTextureWithOffset_as_moved_drawTexture
           (Sample.texture true) 10 20 (Sample.driver false) eq_refl).
Defined.

(** A matrix with an infinite component passes the six assertions, and
    the context receives it. *)
Lemma setTransform_applies_infinite_matrix :
  hasNonFinite (mkMatrix infinity 0 0 1 0 neg_infinity) = true /\
  CanvasDriver.setTransform (mkMatrix infinity 0 0 1 0 neg_infinity) (Sample.driver false)
    = Ok (CanvasDriver.mk
            [CanvasDriver.ctx_setTransform infinity 0 0 1 0 neg_infinity]
            2 640 480 false (Some (mkMatrix infinity 0 0 1 0 neg_infinity))
            1 (Str "source-over")).
Proof. split; reflexivity. Defined.

Lemma setTransform_asserts_not_NaN_witness :
  (hasNaN (mkMatrix 1 0 0 1 nan 0) = true /\
   exists message,
     CanvasDriver.setTransform (mkMatrix 1 0 0 1 nan 0) (Sample.driver false)
       = Throw message) /\
  (hasNaN (mkMatrix 1 0 0 1 3 4) = false /\
   exists d' e f,
     CanvasDriver.setTransform (mkMatrix 1 0 0 1 3 4) (Sample.driver false) = Ok d' /\
     CanvasDriver.mTransform d' = Some (mkMatrix 1 0 0 1 3 4) /\
     CanvasDriver.mCtx d' = [CanvasDriver.ctx_setTransform 1 0 0 1 e f]).
Proof.
  split; (split; [ reflexivity | ]).
  - exact (proj1 (setTransform_asserts_not_NaN (mkMatrix 1 0 0 1 nan 0)
                    (Sample.driver false)) eq_refl).
  - exact (proj1 (proj2 (setTransform_asserts_not_NaN (mkMatrix 1 0 0 1 3 4)
                           (Sample.driver false))) eq_refl).
Defined.

(** At device scale 2 a translation of 0.5 reaches the context as 1: the
    product 0.5 * 2 is cut to an integer.  Snapping 0.5 to an integer first
    and scaling afterwards gives 0 (rounding down, as [| 0] does) or 2
    (rounding up), never 1. *)
Lemma setTransform_scales_before_snapping :
  CanvasDriver.setTransform (mkMatrix 1 0 0 1 0.5 0.5) (Sample.driver true)
    = Ok (CanvasDriver.mk [CanvasDriver.ctx_setTransform 1 0 0 1 1 1]
            2 640 480 true (Some (mkMatrix 1 0 0 1 0.5 0.5)) 1 (Str "source-over")) /\
  Spec.snapThenScale 0.5 2 = 0%float /\
  Js.num_eq (Spec.snapThenScale 0.5 2) 1 = false /\
  Js.num_eq (1 * 2) 1 = false.
Proof. repeat split. Defined.

Lemma setTransform_snaps_after_scaling_witness :
  hasNaN (mkMatrix 1 0 0 1 0.5 (-3.75)) = false /\
  CanvasDriver.setTransform (mkMatrix 1 0 0 1 0.5 (-3.75)) (Sample.driver true)
    = Ok (CanvasDriver.call (CanvasDriver.ctx_setTransform 1 0 0 1 1 (-7))
            (CanvasDriver.set_mTransform (mkMatrix 1 0 0 1 0.5 (-3.75))
               (Sample.driver true))) /\
  CanvasDriver.setTransform (mkMatrix 1 0 0 1 0.5 (-3.75)) (Sample.driver false)
    = Ok (CanvasDriver.call (CanvasDriver.ctx_setTransform 1 0 0 1 1 (-7.5))
            (CanvasDriver.set_mTransform (mkMatrix 1 0 0 1 0.5 (-3.75))
               (Sample.driver false))).
Proof.
  split; [ reflexivity | split ].
  - exact (setTransform_snaps_after_scaling (mkMatrix 1 0 0 1 0.5 (-3.75))
             (Sample.driver true) eq_refl).
  - exact (setTransform_snaps_after_scaling (mkMatrix 1 0 0 1 0.5 (-3.75))
             (Sample.driver false) eq_refl).
Defined.

(** [AUTO] is no blend-mode identifier of the context but the request
    to leave the blend mode as it is: after a resize, as at any other time,
    [globalBlendMode = AUTO] returns before the lookup and writes
    nothing. *)
Lemma resize_then_AUTO_writes_nothing :
  CanvasDriver.mCtx
    (CanvasDriver.__onResize (E := Sample.environment)
       tt (Rectangle.mk 0 0 800 600) (Sample.driver false))
    = [CanvasDriver.canvas_width 1600; CanvasDriver.canvas_height 1200;
       CanvasDriver.canvas_style_width 800; CanvasDriver.canvas_style_height 600] /\
  CanvasDriver.set_globalBlendMode (B := Sample.blend) (E := Sample.environment)
    (@BlendMode.AUTO Sample.blend)
    (CanvasDriver.__onResize (E := Sample.environment)
       tt (Rectangle.mk 0 0 800 600) (Sample.driver false))
    = CanvasDriver.__onResize (E := Sample.environment)
        tt (Rectangle.mk 0 0 800 600) (Sample.driver false).
Proof. split; reflexivity. Defined.

(** The sample driver had applied alpha 1 and "source-over" before the
    resize; writing the same two values after it reaches the context. *)
Lemma resize_resets_shadow_state_witness :
  Js.num_eq 1 (-1) = false /\
  String.eqb "normal" (@BlendMode.AUTO Sample.blend) = false /\
  CanvasDriver.mGlobalAlpha (Sample.driver false) = 1%float /\
  CanvasDriver.mGlobalBlendMode (Sample.driver false) = Str "source-over" /\
  CanvasDriver.mCtx
    (CanvasDriver.set_globalBlendMode (B := Sample.blend) (E := Sample.environment)
       "normal"
       (CanvasDriver.set_globalAlpha 1
          (CanvasDriver.__onResize (E := Sample.environment)
             tt (Rectangle.mk 0 0 800 600) (Sample.driver false))))
    = [CanvasDriver.canvas_width 1600; CanvasDriver.canvas_height 1200;
       CanvasDriver.canvas_style_width 800; CanvasDriver.canvas_style_height 600;
       CanvasDriver.ctx_globalAlpha 1;
       CanvasDriver.ctx_globalCompositeOperation (Str "source-over")].
Proof.
  repeat (split; [ reflexivity | ]).
  exact (proj2 (proj2 (proj2 (proj2 (proj2 (proj2 (proj2
           (resize_resets_shadow_state (B := Sample.blend) (E := Sample.environment)
              tt (Rectangle.mk 0 0 800 600) (Sample.driver false) 1 "normal"
              eq_refl eq_refl)))))))).
Defined.

(** ** Clearing one flag bit *)

(** Toggling a flag bit that is set is the same as masking it out. *)
Lemma xor_set_bit_is_and_not (d i : Z) :
  0 <= i < 31 -> Z.testbit d i = true ->
  Js.bitxor d (2 ^ i) = Js.bitand d (Js.bitnot (2 ^ i)).
Proof.
  intros Hi Hset. apply Z.bits_inj'. intros k Hk.
  rewrite bitxor_spec, bitand_spec, bitnot_spec, min_min_31 by lia.
  destruct (Z.eq_dec (Z.min k 31) i) as [E | E].
  - rewrite E, Hset, Z.pow2_bits_true by lia. reflexivity.
  - rewrite Z.pow2_bits_false by lia.
    now rewrite xorb_false_r, andb_true_r.
Qed.

(** Toggling a flag bit that is clear sets it: the guard is what makes the
    toggle a clear. *)
Lemma xor_clear_bit_sets_it (d i : Z) :
  0 <= i < 31 -> Z.testbit d i = false -> Z.testbit (Js.bitxor d (2 ^ i)) i = true.
Proof.
  intros Hi Hclear.
  rewrite bitxor_spec, Z.min_l, Hclear, Z.pow2_bits_true by lia. reflexivity.
Qed.

Lemma and_not_twice (d a b : Z) :
  Js.bitand (Js.bitand d (Js.bitnot a)) (Js.bitnot b)
  = Js.bitand d (Js.bitnot (Z.lor a b)).
Proof.
  apply Z.bits_inj'. intros k Hk.
  rewrite !bitand_spec, !bitnot_spec, Z.lor_spec, !min_min_31 by lia.
  rewrite negb_orb. now rewrite andb_assoc.
Qed.

Lemma and_not_zero (d : Z) : Js.bitand d (Js.bitnot 0) = Js.wrap32 d.
Proof.
  apply Z.bits_inj'. intros k Hk.
  rewrite bitand_spec, bitnot_spec, wrap32_spec, Z.bits_0 by lia.
  apply andb_true_r.
Qed.

Lemma bitxor_other_bit (d i j : Z) :
  0 <= i < 31 -> 0 <= j < 31 -> i <> j ->
  Z.testbit (Js.bitxor d (2 ^ i)) j = Z.testbit d j.
Proof.
  intros Hi Hj Hij.
  rewrite bitxor_spec, Z.min_l, Z.pow2_bits_false by lia. apply xorb_false_r.
Qed.

(** ** Renderer synchronisation in [BitmapTextField.onRender] *)

Section DisplayProperties.

Import BitmapTextField.

Context {F : DirtyFlag.t} {B : BlendMode.t} {C : TextCollaborators}.

Local Abbreviation renderDirty n :=
  (Js.truthy (Js.bitand (mDirty n) DirtyFlag.RENDER)).
Local Abbreviation cacheDirty n :=
  (Js.truthy (Js.bitand (mDirty n) DirtyFlag.RENDER_CACHE)).

(** *** What each block does to the mask and to the renderer *)

Lemma rebuildCache_mDirty (n : t) : mDirty (rebuildCache n) = mDirty n.
Proof.
  unfold rebuildCache, onGetLocalBounds.
  destruct (Js.truthy _); reflexivity.
Qed.

Lemma rebuildCache_sync_fields (n : t) :
  Renderer.alpha (mRenderer (rebuildCache n)) = Renderer.alpha (mRenderer n) /\
  Renderer.blendMode (mRenderer (rebuildCache n)) = Renderer.blendMode (mRenderer n).
Proof.
  unfold rebuildCache, onGetLocalBounds.
  destruct (Js.truthy _); split; reflexivity.
Qed.

Lemma syncRender_mDirty (parent : Renderer.t) (n : t) :
  mDirty (syncRender parent n)
  = if renderDirty n then Js.bitxor (mDirty n) DirtyFlag.RENDER else mDirty n.
Proof.
  unfold syncRender. destruct (renderDirty n); reflexivity.
Qed.

Lemma syncRenderCache_mDirty (n : t) :
  mDirty (syncRenderCache n)
  = if cacheDirty n && isRenderable (mRenderer (rebuildCache n))
    then Js.bitxor (mDirty n) DirtyFlag.RENDER_CACHE else mDirty n.
Proof.
  unfold syncRenderCache. cbv zeta. destruct (cacheDirty n); [ | reflexivity ].
  destruct (isRenderable (mRenderer (rebuildCache n))); cbn [Bool.eqb andb].
  - rewrite <- (rebuildCache_mDirty n). reflexivity.
  - apply rebuildCache_mDirty.
Qed.

Lemma syncRenderCache_sync_fields (n : t) :
  Renderer.alpha (mRenderer (syncRenderCache n)) = Renderer.alpha (mRenderer n) /\
  Renderer.blendMode (mRenderer (syncRenderCache n)) = Renderer.blendMode (mRenderer n).
Proof.
  unfold syncRenderCache. cbv zeta. destruct (cacheDirty n); [ | split; reflexivity ].
  destruct (Bool.eqb _ true); apply rebuildCache_sync_fields.
Qed.

Lemma onRender_mDirty {R : Type} (reg : Renderer.t -> R) (parent : Renderer.t) (n : t) :
  mDirty (fst (onRender reg parent n)) = mDirty (syncRenderCache (syncRender parent n)).
Proof. reflexivity. Qed.

Lemma onRender_sync_fields {R : Type} (reg : Renderer.t -> R) (parent : Renderer.t) (n : t) :
  Renderer.alpha (mRenderer (fst (onRender reg parent n)))
    = Renderer.alpha (mRenderer (syncRender parent n)) /\
  Renderer.blendMode (mRenderer (fst (onRender reg parent n)))
    = Renderer.blendMode (mRenderer (syncRender parent n)).
Proof.
  unfold onRender. cbn [fst].
  destruct (syncRenderCache_sync_fields (syncRender parent n)) as [Ha Hb].
  split; [ rewrite <- Ha | rewrite <- Hb ]; reflexivity.
Qed.

Lemma onRender_alpha {R : Type} (reg : Renderer.t -> R) (parent : Renderer.t) (n : t) :
  renderDirty n = true ->
  Renderer.alpha (mRenderer (fst (onRender reg parent n)))
  = (DisplayObject.mAlpha (super n) * Renderer.alpha parent)%float.
Proof.
  intros Hdirty. rewrite (proj1 (onRender_sync_fields reg parent n)).
  unfold syncRender. rewrite Hdirty. reflexivity.
Qed.

(** C7.  For every node and every parent renderer, when [RENDER] is set,
    [onRender] leaves [node.alpha * parentRenderer.alpha] in the node's
    renderer.  So along every chain root, A, B, all three due for [RENDER]
    and visited parent first, each renderer's alpha is the node's alpha
    times the alpha of the renderer above it; with alphas 0.5, 0.8 and 1
    under a parent renderer of alpha 1, the renderer of B ends with
    alpha 0.4. *)
Theorem onRender_alpha_is_inherited {R : Type} (reg : Renderer.t -> R) :
  (forall (parent : Renderer.t) (n : t),
     renderDirty n = true ->
     Renderer.alpha (mRenderer (fst (onRender reg parent n)))
       = (DisplayObject.mAlpha (super n) * Renderer.alpha parent)%float) /\
  (forall (parent : Renderer.t) (root a b : t),
     renderDirty root = true -> renderDirty a = true -> renderDirty b = true ->
     exists root' a' b',
       renderChain reg parent [root; a; b] = [root'; a'; b'] /\
       Renderer.alpha (mRenderer root')
         = (DisplayObject.mAlpha (super root) * Renderer.alpha parent)%float /\
       Renderer.alpha (mRenderer a')
         = (DisplayObject.mAlpha (super a) * Renderer.alpha (mRenderer root'))%float /\
       Renderer.alpha (mRenderer b')
         = (DisplayObject.mAlpha (super b) * Renderer.alpha (mRenderer a'))%float /\
       (Renderer.alpha parent = 1%float ->
        DisplayObject.mAlpha (super root) = 0.5%float ->
        DisplayObject.mAlpha (super a) = 0.8%float ->
        DisplayObject.mAlpha (super b) = 1%float ->
        Renderer.alpha (mRenderer b') = 0.4%float)).
Proof.
  split.
  - intros parent n Hn. exact (onRender_alpha reg parent n Hn).
  - intros parent root a b Hroot Ha Hb.
    do 3 eexists. split; [ reflexivity | ].
    pose proof (onRender_alpha reg parent root Hroot) as E1.
    pose proof (onRender_alpha reg (mRenderer (fst (onRender reg parent root))) a Ha) as E2.
    pose proof (onRender_alpha reg
                  (mRenderer (fst (onRender reg
                     (mRenderer (fst (onRender reg parent root))) a))) b Hb) as E3.
    split; [ exact E1 | ].
    split; [ exact E2 | ].
    split; [ exact E3 | ].
    intros Hparent Aroot Aa Ab.
    rewrite E3, E2, E1, Hparent, Aroot, Aa, Ab. reflexivity.
Qed.

(** C8.  When [RENDER] is set, [onRender] leaves in the node's renderer the
    parent renderer's blend mode if the node's blend mode is [AUTO], and the
    node's own blend mode otherwise.  An [AUTO] node under a parent resolved
    to [MULTIPLY] gets [MULTIPLY]. *)
Theorem onRender_blendMode_is_resolved {R : Type} (reg : Renderer.t -> R)
    (parent : Renderer.t) (n : t) :
  renderDirty n = true ->
  let resolved := Renderer.blendMode (mRenderer (fst (onRender reg parent n))) in
  (DisplayObject.mBlendMode (super n) = BlendMode.AUTO ->
   resolved = Renderer.blendMode parent) /\
  (DisplayObject.mBlendMode (super n) <> BlendMode.AUTO ->
   resolved = DisplayObject.mBlendMode (super n)) /\
  (DisplayObject.mBlendMode (super n) = BlendMode.AUTO ->
   Renderer.blendMode parent = BlendMode.MULTIPLY ->
   resolved = BlendMode.MULTIPLY).
Proof.
  intros Hdirty resolved.
  assert (E : resolved
              = if String.eqb (DisplayObject.mBlendMode (super n)) BlendMode.AUTO
                then Renderer.blendMode parent
                else DisplayObject.mBlendMode (super n)).
  { subst resolved. rewrite (proj2 (onRender_sync_fields reg parent n)).
    unfold syncRender. rewrite Hdirty. reflexivity. }
  repeat split.
  - intros Hauto. rewrite E, Hauto, String.eqb_refl. reflexivity.
  - intros Hown. rewrite E. apply String.eqb_neq in Hown. now rewrite Hown.
  - intros Hauto Hmul. rewrite E, Hauto, String.eqb_refl. exact Hmul.
Qed.

(** With one-bit flags the two tests of [onRender] read one bit each. *)
Lemma cacheDirty_after_syncRender (parent : Renderer.t) (n : t) :
  DirtyFlag.independent_bits F ->
  cacheDirty (syncRender parent n) = cacheDirty n.
Proof.
  intros (i & j & Hi & Hj & Hij & ER & EC).
  rewrite syncRender_mDirty, ER, EC, !truthy_bitand_pow2 by lia.
  destruct (Z.testbit (mDirty n) i); [ | reflexivity ].
  now apply bitxor_other_bit.
Qed.

Lemma cacheDirty_after_onRender {R : Type} (reg : Renderer.t -> R)
    (parent : Renderer.t) (n : t) :
  DirtyFlag.independent_bits F ->
  cacheDirty n = true ->
  cacheDirty (fst (onRender reg parent n))
  = negb (isRenderable (mRenderer (rebuildCache (syncRender parent n)))).
Proof.
  intros Hbits Hcache.
  pose proof (cacheDirty_after_syncRender parent n Hbits) as H1.
  rewrite Hcache in H1.
  destruct Hbits as (i & j & Hi & Hj & Hij & ER & EC).
  rewrite onRender_mDirty, syncRenderCache_mDirty, H1. cbn [andb].
  destruct (isRenderable (mRenderer (rebuildCache (syncRender parent n)))).
  - rewrite EC in *. rewrite truthy_bitand_pow2 in * by lia.
    rewrite bitxor_spec, Z.min_l, H1, Z.pow2_bits_true by lia. reflexivity.
  - exact H1.
Qed.

(** C1.  When [RENDER_CACHE] is set on entry to [onRender], it is clear on
    return exactly when the rebuilt renderer is renderable.  If the renderer
    is not renderable the flag is still set on return, and a later [onRender]
    of the node (whatever happened to it in between, as long as the flag is
    still set) whose rebuild gives a renderable renderer clears it. *)
Theorem onRender_clears_cache_flag_iff_renderable {R : Type}
    (reg : Renderer.t -> R) (parent : Renderer.t) (n : t) :
  DirtyFlag.independent_bits F ->
  cacheDirty n = true ->
  let rebuilt := mRenderer (rebuildCache (syncRender parent n)) in
  let n' := fst (onRender reg parent n) in
  (cacheDirty n' = false <-> isRenderable rebuilt = true) /\
  (isRenderable rebuilt = false ->
   cacheDirty n' = true /\
   forall (between : t -> t) (parent' : Renderer.t),
     cacheDirty (between n') = true ->
     isRenderable (mRenderer (rebuildCache (syncRender parent' (between n')))) = true ->
     cacheDirty (fst (onRender reg parent' (between n'))) = false).
Proof.
  intros Hbits Hcache rebuilt n'.
  pose proof (cacheDirty_after_onRender reg parent n Hbits Hcache) as E.
  fold rebuilt in E. fold n' in E. split.
  - rewrite E. destruct (isRenderable rebuilt); cbn; split; congruence.
  - intros Hnot. split.
    + rewrite E, Hnot. reflexivity.
    + intros between parent' Hstill Hok.
      rewrite (cacheDirty_after_onRender reg parent' (between n') Hbits Hstill), Hok.
      reflexivity.
Qed.

(** *** The clears of [onRender] as AND-NOT *)

Lemma flag_choice_bit (b : bool) (i k : Z) :
  0 <= i -> 0 <= k -> Z.testbit (if b then 2 ^ i else 0) k = b && (i =? k).
Proof.
  intros Hi Hk. destruct b; [ | apply Z.bits_0 ].
  now rewrite Z.pow2_bits_eqb by lia.
Qed.

Lemma syncRender_and_not (parent : Renderer.t) (n : t) :
  DirtyFlag.independent_bits F ->
  mDirty (syncRender parent n)
  = if renderDirty n
    then Js.bitand (mDirty n) (Js.bitnot DirtyFlag.RENDER)
    else mDirty n.
Proof.
  intros (i & j & Hi & Hj & Hij & ER & EC).
  rewrite syncRender_mDirty, ER.
  destruct (Js.truthy (Js.bitand (mDirty n) (2 ^ i))) eqn:Hr; [ | reflexivity ].
  rewrite truthy_bitand_pow2 in Hr by lia.
  now apply xor_set_bit_is_and_not.
Qed.

Lemma syncRenderCache_and_not (n : t) :
  DirtyFlag.independent_bits F ->
  mDirty (syncRenderCache n)
  = if cacheDirty n && isRenderable (mRenderer (rebuildCache n))
    then Js.bitand (mDirty n) (Js.bitnot DirtyFlag.RENDER_CACHE)
    else mDirty n.
Proof.
  intros (i & j & Hi & Hj & Hij & ER & EC).
  rewrite syncRenderCache_mDirty, EC.
  destruct (Js.truthy (Js.bitand (mDirty n) (2 ^ j))) eqn:Hc; [ | reflexivity ].
  rewrite truthy_bitand_pow2 in Hc by lia.
  destruct (isRenderable _); [ | reflexivity ].
  now apply xor_set_bit_is_and_not.
Qed.

(** C2.  Every clear that [onRender] performs equals the AND-NOT of the
    flag it services: the [RENDER] clear of the first block and the
    [RENDER_CACHE] clear of the second.  For the call as a whole, the mask on
    return is the mask on entry with exactly the serviced bits masked out;
    these bits were set on entry; no bit that was clear on entry is set on
    return; every bit outside the serviced ones is as it was.  (Masks are
    read as 32-bit integers, as the bitwise operators read them.) *)
Theorem onRender_clears_by_and_not {R : Type}
    (reg : Renderer.t -> R) (parent : Renderer.t) (n : t) :
  DirtyFlag.independent_bits F ->
  let d := mDirty n in
  let n1 := syncRender parent n in
  let d' := mDirty (fst (onRender reg parent n)) in
  let s := serviced parent n in
  mDirty n1
    = (if renderDirty n then Js.bitand d (Js.bitnot DirtyFlag.RENDER) else d) /\
  d' = (if cacheDirty n1 && isRenderable (mRenderer (rebuildCache n1))
        then Js.bitand (mDirty n1) (Js.bitnot DirtyFlag.RENDER_CACHE)
        else mDirty n1) /\
  Js.wrap32 d' = Js.bitand d (Js.bitnot s) /\
  (s = 0 -> d' = d) /\
  Js.bitand d s = s /\
  (forall k, 0 <= k ->
     Z.testbit (Js.wrap32 d') k = true -> Z.testbit (Js.wrap32 d) k = true) /\
  (forall k, 0 <= k ->
     Z.testbit s k = false -> Z.testbit (Js.wrap32 d') k = Z.testbit (Js.wrap32 d) k).
Proof.
  intros Hbits d n1 d' s.
  pose proof (syncRender_and_not parent n Hbits) as HA.
  pose proof (syncRenderCache_and_not (syncRender parent n) Hbits) as HB.
  change (mDirty (syncRenderCache (syncRender parent n))) with d' in HB.
  pose proof (cacheDirty_after_syncRender parent n Hbits) as Hsame.
  destruct Hbits as (i & j & Hi & Hj & Hij & ER & EC).
  subst d n1.
  (* the two decisions of the call *)
  set (n1 := syncRender parent n) in *.
  set (d := mDirty n) in *.
  set (r := Js.truthy (Js.bitand d DirtyFlag.RENDER)) in *.
  set (c := cacheDirty n1 && isRenderable (mRenderer (rebuildCache n1))) in *.
  assert (Hs : s = Z.lor (if r then 2 ^ i else 0) (if c then 2 ^ j else 0)).
  { subst s r c. unfold serviced. fold n1 d. now rewrite ER, EC. }
  assert (Hr : r = true -> Z.testbit d i = true).
  { subst r. rewrite ER, truthy_bitand_pow2 by lia. auto. }
  assert (Hc : c = true -> Z.testbit d j = true).
  { subst c. intros H. apply andb_true_iff in H as [H _].
    rewrite Hsame, EC, truthy_bitand_pow2 in H by lia. exact H. }
  assert (Sbit : forall k, 0 <= k -> Z.testbit s k = (r && (i =? k)) || (c && (j =? k))).
  { intros k Hk. now rewrite Hs, Z.lor_spec, !flag_choice_bit by lia. }
  assert (Shigh : forall k, 31 <= k -> Z.testbit s k = false).
  { intros k Hk. rewrite Sbit by lia.
    rewrite (proj2 (Z.eqb_neq i k)), (proj2 (Z.eqb_neq j k)) by lia.
    now rewrite !andb_false_r. }
  assert (Smin : forall k, 0 <= k -> Z.testbit s k = false -> Z.testbit s (Z.min k 31) = false).
  { intros k Hk H. destruct (Z.lt_ge_cases k 31).
    - now rewrite Z.min_l by lia.
    - rewrite Z.min_r by lia. apply Shigh. lia. }
  assert (Main : Js.wrap32 d' = Js.bitand d (Js.bitnot s)).
  { rewrite HB, HA, Hs, ER, EC. destruct r, c.
    - rewrite bitand_range. apply and_not_twice.
    - now rewrite bitand_range, Z.lor_0_r.
    - now rewrite bitand_range, Z.lor_0_l.
    - rewrite Z.lor_0_r. symmetry. apply and_not_zero. }
  assert (Bits : forall k, 0 <= k ->
            Z.testbit (Js.wrap32 d') k
            = Z.testbit (Js.wrap32 d) k && negb (Z.testbit s (Z.min k 31))).
  { intros k Hk. now rewrite Main, bitand_spec, bitnot_spec, wrap32_spec, min_min_31 by lia. }
  split; [ exact HA | ]. split; [ exact HB | ]. split; [ exact Main | ].
  split; [ | split; [ | split ] ].
  - intros Hzero. rewrite Hs in Hzero. apply Z.lor_eq_0_iff in Hzero as [Z1 Z2].
    assert (r = false) as Er by (destruct r; [ lia | reflexivity ]).
    assert (c = false) as Ec by (destruct c; [ lia | reflexivity ]).
    now rewrite HB, HA, Er, Ec.
  - apply Z.bits_inj'. intros k Hk. rewrite bitand_spec by lia.
    destruct (Z.lt_ge_cases k 31) as [Hlow | Hhigh].
    + rewrite Z.min_l by lia.
      destruct (Z.testbit s k) eqn:Hsk; [ | apply andb_false_r ].
      rewrite Sbit in Hsk by lia. apply orb_true_iff in Hsk as [H | H];
        apply andb_true_iff in H as [Hon Hk']; apply Z.eqb_eq in Hk'; subst k.
      * now rewrite (Hr Hon).
      * now rewrite (Hc Hon).
    + rewrite Z.min_r, !Shigh by lia. apply andb_false_r.
  - intros k Hk Hset. rewrite Bits in Hset by lia.
    now apply andb_true_iff in Hset as [Hset _].
  - intros k Hk Hout. rewrite Bits, (Smin k Hk Hout) by lia. apply andb_true_r.
Qed.

(** *** Setters given the value already held *)

Lemma ref_eqb_refl (p : option ref) : ref_eqb p p = true.
Proof. destruct p; [ apply Pos.eqb_refl | reflexivity ]. Qed.

Context {A : DisplayObject.Anchors}.

(** C10, as amended.  Assigning the texture a sprite already holds, or the
    text or the [autoSize] value a text field already has, returns the node
    as it was: no field changes and no flag is set.  The same holds for
    [fieldWidth] and [fieldHeight] when the value held is not [NaN]. *)
Theorem setters_ignore_current_value
    (textures : ref -> Texture.t) (s : Sprite.t) (n : t) :
  Sprite.set_texture textures (Sprite.texture s) s = Ok s /\
  set_text (text n) n = n /\
  set_autoSize (mAutoSize n) n = n /\
  (Js.isNaN (mFieldWidth n) = false -> set_fieldWidth (mFieldWidth n) n = n) /\
  (Js.isNaN (mFieldHeight n) = false -> set_fieldHeight (mFieldHeight n) n = n).
Proof.
  repeat split.
  - unfold Sprite.set_texture, Sprite.texture. now rewrite ref_eqb_refl.
  - unfold set_text, text. now rewrite String.eqb_refl.
  - unfold set_autoSize. now rewrite Bool.eqb_reflx.
  - intros Hnum. unfold set_fieldWidth. now rewrite (num_eq_refl _ Hnum).
  - intros Hnum. unfold set_fieldHeight. now rewrite (num_eq_refl _ Hnum).
Qed.

End DisplayProperties.

(** *** Renderer synchronisation on concrete nodes *)

Lemma sample_flags_independent : DirtyFlag.independent_bits Sample.flags.
Proof. exists 3, 4. repeat split; try lia; reflexivity. Defined.

(** A field with no text cannot be drawn by the sample renderer: the first
    [onRender] clears [RENDER] (8) and keeps [RENDER_CACHE] (16).  Once it
    has been given a text, the next [onRender] clears [RENDER_CACHE] too. *)
Example onRender_retries_until_renderable :
  let render :=
    BitmapTextField.onRender (F := Sample.flags) (B := Sample.blend)
      (C := Sample.collaborators) (fun _ => tt) Sample.renderer in
  let n1 := fst (render (Sample.field 24 1 "")) in
  let n2 := fst (render (BitmapTextField.set_text (F := Sample.flags) "hi" n1)) in
  BitmapTextField.mDirty n1 = 16 /\ BitmapTextField.mDirty n2 = 0 /\
  Renderer.bounds (BitmapTextField.mRenderer n2) = Rectangle.mk 0 0 16 1.2.
Proof. repeat split. Qed.

Lemma onRender_clears_cache_flag_iff_renderable_witness :
  DirtyFlag.independent_bits Sample.flags /\
  Js.truthy (Js.bitand (BitmapTextField.mDirty (Sample.field 24 1 "hi"))
               (@DirtyFlag.RENDER_CACHE Sample.flags)) = true /\
  (Js.truthy
     (Js.bitand
        (BitmapTextField.mDirty
           (fst (BitmapTextField.onRender (F := Sample.flags) (B := Sample.blend)
                   (C := Sample.collaborators) (fun _ => tt) Sample.renderer
                   (Sample.field 24 1 "hi"))))
        (@DirtyFlag.RENDER_CACHE Sample.flags)) = false
   <->
   @isRenderable Sample.collaborators
     (BitmapTextField.mRenderer
        (BitmapTextField.rebuildCache (F := Sample.flags) (C := Sample.collaborators)
           (BitmapTextField.syncRender (F := Sample.flags) (B := Sample.blend)
              Sample.renderer (Sample.field 24 1 "hi")))) = true).
Proof.
  split; [ exact sample_flags_independent | ].
  split; [ reflexivity | ].
  exact (proj1 (onRender_clears_cache_flag_iff_renderable
                  (F := Sample.flags) (B := Sample.blend) (C := Sample.collaborators)
                  (fun _ => tt) Sample.renderer (Sample.field 24 1 "hi")
                  sample_flags_independent eq_refl)).
Defined.

Lemma onRender_clears_by_and_not_witness :
  DirtyFlag.independent_bits Sample.flags /\
  BitmapTextField.serviced (F := Sample.flags) (B := Sample.blend)
    (C := Sample.collaborators) Sample.renderer (Sample.field 0xffffff 1 "hi") = 24 /\
  Js.wrap32
    (BitmapTextField.mDirty
       (fst (BitmapTextField.onRender (F := Sample.flags) (B := Sample.blend)
               (C := Sample.collaborators) (fun _ => tt) Sample.renderer
               (Sample.field 0xffffff 1 "hi"))))
  = Js.bitand (BitmapTextField.mDirty (Sample.field 0xffffff 1 "hi"))
      (Js.bitnot
         (BitmapTextField.serviced (F := Sample.flags) (B := Sample.blend)
            (C := Sample.collaborators) Sample.renderer (Sample.field 0xffffff 1 "hi"))).
Proof.
  split; [ exact sample_flags_independent | ].
  split; [ reflexivity | ].
  exact (proj1 (proj2 (proj2 (onRender_clears_by_and_not
                  (F := Sample.flags) (B := Sample.blend) (C := Sample.collaborators)
                  (fun _ => tt) Sample.renderer (Sample.field 0xffffff 1 "hi")
                  sample_flags_independent)))).
Defined.

Example onRender_clears_by_and_not_values :
  BitmapTextField.mDirty
    (fst (BitmapTextField.onRender (F := Sample.flags) (B := Sample.blend)
            (C := Sample.collaborators) (fun _ => tt) Sample.renderer
            (Sample.field 0xffffff 1 "hi"))) = 0xffffe7 /\
  BitmapTextField.mDirty
    (fst (BitmapTextField.onRender (F := Sample.flags) (B := Sample.blend)
            (C := Sample.collaborators) (fun _ => tt) Sample.renderer
            (Sample.field 0xffffff 1 ""))) = 0xfffff7 /\
  BitmapTextField.mDirty
    (fst (BitmapTextField.onRender (F := Sample.flags) (B := Sample.blend)
            (C := Sample.collaborators) (fun _ => tt) Sample.renderer
            (Sample.field 5 1 "hi"))) = 5.
Proof. repeat split. Qed.

Lemma onRender_alpha_is_inherited_witness :
  (Js.truthy (Js.bitand (BitmapTextField.mDirty (Sample.field 8 0.5 "root"))
                (@DirtyFlag.RENDER Sample.flags)) = true /\
   Renderer.alpha Sample.renderer = 1%float) /\
  exists root' a' b',
    BitmapTextField.renderChain (F := Sample.flags) (B := Sample.blend)
      (C := Sample.collaborators) (fun _ => tt) Sample.renderer
      [Sample.field 8 0.5 "root"; Sample.field 8 0.8 "A"; Sample.field 8 1 "B"]
    = [root'; a'; b'] /\
    Renderer.alpha (BitmapTextField.mRenderer root') = 0.5%float /\
    Renderer.alpha (BitmapTextField.mRenderer a') = 0.4%float /\
    Renderer.alpha (BitmapTextField.mRenderer b') = 0.4%float.
Proof.
  split; [ split; reflexivity | ].
  destruct (proj2 (onRender_alpha_is_inherited
                     (F := Sample.flags) (B := Sample.blend) (C := Sample.collaborators)
                     (fun _ => tt))
              Sample.renderer
              (Sample.field 8 0.5 "root") (Sample.field 8 0.8 "A") (Sample.field 8 1 "B")
              eq_refl eq_refl eq_refl)
    as (root' & a' & b' & Hchain & Hroot & Ha & _ & Hb).
  exists root', a', b'.
  split; [ exact Hchain | ].
  split; [ exact Hroot | ].
  split; [ | exact (Hb eq_refl eq_refl eq_refl eq_refl) ].
  rewrite Ha, Hroot. reflexivity.
Defined.

Lemma onRender_blendMode_is_resolved_witness :
  Js.truthy (Js.bitand (BitmapTextField.mDirty (Sample.field 8 1 "leaf"))
               (@DirtyFlag.RENDER Sample.flags)) = true /\
  DisplayObject.mBlendMode (BitmapTextField.super (Sample.field 8 1 "leaf"))
    = @BlendMode.AUTO Sample.blend /\
  Renderer.blendMode
    (BitmapTextField.mRenderer
       (fst (BitmapTextField.onRender (F := Sample.flags) (B := Sample.blend)
               (C := Sample.collaborators) (fun _ => tt)
               (Renderer.set_sync Sample.identity 1 "multiply" true Sample.renderer)
               (Sample.field 8 1 "leaf"))))
  = @BlendMode.MULTIPLY Sample.blend.
Proof.
  split; [ reflexivity | split; [ reflexivity | ] ].
  exact (proj2 (proj2 (onRender_blendMode_is_resolved
                  (F := Sample.flags) (B := Sample.blend) (C := Sample.collaborators)
                  (fun _ => tt)
                  (Renderer.set_sync Sample.identity 1 "multiply" true Sample.renderer)
                  (Sample.field 8 1 "leaf") eq_refl)) eq_refl eq_refl).
Defined.

(** A text field whose [fieldWidth] is [NaN] and whose mask is clean:
    assigning [fieldWidth] the value it holds sets [RENDER_CACHE] (16),
    since [NaN === NaN] is false.  The same goes for [fieldHeight]. *)
Lemma set_fieldWidth_NaN_sets_cache_flag :
  BitmapTextField.mDirty Sample.nanField = 0 /\
  BitmapTextField.mDirty
    (BitmapTextField.set_fieldWidth (F := Sample.flags)
       (BitmapTextField.mFieldWidth Sample.nanField) Sample.nanField) = 16 /\
  BitmapTextField.mDirty
    (BitmapTextField.set_fieldHeight (F := Sample.flags)
       (BitmapTextField.mFieldHeight Sample.nanField) Sample.nanField) = 16.
Proof. repeat split. Defined.

Lemma setters_ignore_current_value_witness :
  Sprite.set_texture (F := Sample.flags) (A := Sample.anchors) Sample.textures
    (Sprite.texture (Sample.sprite 0 (Some 7%positive))) (Sample.sprite 0 (Some 7%positive))
    = Ok (Sample.sprite 0 (Some 7%positive)) /\
  Js.isNaN (BitmapTextField.mFieldWidth (Sample.field 0 1 "hi")) = false /\
  BitmapTextField.set_fieldWidth (F := Sample.flags)
    (BitmapTextField.mFieldWidth (Sample.field 0 1 "hi")) (Sample.field 0 1 "hi")
    = Sample.field 0 1 "hi" /\
  Js.isNaN (BitmapTextField.mFieldHeight (Sample.field 0 1 "hi")) = false /\
  BitmapTextField.set_fieldHeight (F := Sample.flags)
    (BitmapTextField.mFieldHeight (Sample.field 0 1 "hi")) (Sample.field 0 1 "hi")
    = Sample.field 0 1 "hi".
Proof.
  destruct (setters_ignore_current_value
              (F := Sample.flags) (A := Sample.anchors) Sample.textures
              (Sample.sprite 0 (Some 7%positive)) (Sample.field 0 1 "hi"))
    as (Htex & _ & _ & Hw & Hh).
  split; [ exact Htex | ].
  split; [ reflexivity | ].
  split; [ exact (Hw eq_refl) | ].
  split; [ reflexivity | exact (Hh eq_refl) ].
Defined.

(** [multiline] and [lineHeight] have no such guard: they mark the node
    even when given the value it holds. *)
Example unguarded_setters_always_mark :
  BitmapTextField.mDirty
    (BitmapTextField.set_multiline (F := Sample.flags)
       (BitmapTextField.mMultiline (Sample.field 0 1 "hi")) (Sample.field 0 1 "hi")) = 16 /\
  BitmapTextField.mDirty
    (BitmapTextField.set_lineHeight (F := Sample.flags)
       (BitmapTextField.mLineHeight (Sample.field 0 1 "hi")) (Sample.field 0 1 "hi")) = 16.
Proof. split; reflexivity. Qed.

(** The setters do mark the node when the value is new. *)
Example setters_mark_on_change :
  BitmapTextField.mDirty
    (BitmapTextField.set_text (F := Sample.flags) "new" (Sample.field 0 1 "old")) = 16 /\
  BitmapTextField.mDirty
    (BitmapTextField.set_fieldWidth (F := Sample.flags) 100 (Sample.field 0 1 "old")) = 16 /\
  (exists s,
     Sprite.set_texture (F := Sample.flags) (A := Sample.anchors) Sample.textures
       (Some 9%positive) (Sample.sprite 0 (Some 7%positive)) = Ok s /\
     DisplayObject.mDirty (Sprite.super s) = 24 /\
     Sprite.mTexture s = Some 9%positive).
Proof.
  repeat split. eexists. repeat split.
Qed.

(** * Further properties of the code *)

(** ** Setting one flag bit *)

Lemma bitor_sets_bit (d i : Z) :
  0 <= i < 31 -> Z.testbit (Js.bitor d (2 ^ i)) i = true.
Proof.
  intros Hi. rewrite bitor_spec, Z.min_l, Z.pow2_bits_true by lia.
  apply orb_true_r.
Qed.

Lemma bitor_other_bit (d i j : Z) :
  0 <= i < 31 -> 0 <= j < 31 -> i <> j ->
  Z.testbit (Js.bitor d (2 ^ i)) j = Z.testbit d j.
Proof.
  intros Hi Hj Hij.
  rewrite bitor_spec, Z.min_l, Z.pow2_bits_false by lia. apply orb_false_r.
Qed.

(** ** Text without line breaks *)

Lemma removeNewlines_filter (s : string) :
  list_ascii_of_string (BitmapTextField.removeNewlines s)
  = filter (fun c => negb (Ascii.eqb c "010"%char)) (list_ascii_of_string s).
Proof.
  induction s as [ | c rest IH ]; [ reflexivity | ].
  cbn [BitmapTextField.removeNewlines list_ascii_of_string filter].
  destruct (Ascii.eqb c "010"%char); cbn [negb]; [ exact IH | ].
  cbn [list_ascii_of_string]. now rewrite IH.
Qed.

Lemma removeNewlines_no_newline (s : string) :
  ~ In "010"%char (list_ascii_of_string (BitmapTextField.removeNewlines s)).
Proof.
  rewrite removeNewlines_filter. intros H. apply filter_In in H as [_ H].
  now rewrite Ascii.eqb_refl in H.
Qed.

Lemma removeNewlines_fixes_single_line (s : string) :
  ~ In "010"%char (list_ascii_of_string s) -> BitmapTextField.removeNewlines s = s.
Proof.
  induction s as [ | c rest IH ]; [ reflexivity | ].
  cbn [BitmapTextField.removeNewlines list_ascii_of_string]. intros Hno.
  destruct (Ascii.eqb c "010"%char) eqn:Ec.
  - apply Ascii.eqb_eq in Ec. subst c. exfalso. apply Hno. now left.
  - f_equal. apply IH. intros Hin. apply Hno. now right.
Qed.

(** ** More on [BitmapTextField] *)

Section TextFieldProperties.

Import BitmapTextField.

Context {F : DirtyFlag.t} {B : BlendMode.t} {C : TextCollaborators}.

Local Abbreviation renderDirty n :=
  (Js.truthy (Js.bitand (mDirty n) DirtyFlag.RENDER)).
Local Abbreviation cacheDirty n :=
  (Js.truthy (Js.bitand (mDirty n) DirtyFlag.RENDER_CACHE)).

(** X1.  In single-line mode ([multiline] false) with [RENDER_CACHE] set,
    [onGetLocalBounds] measures the text with every line feed taken out and
    all other characters kept in order; in multi-line mode it measures the
    text as it is.  The measured bounds go to [mTextBounds]. *)
Theorem onGetLocalBounds_measures_without_newlines
    (outRect : option Rectangle.t) (n : t) :
  cacheDirty n = true ->
  exists measured : string,
    mTextBounds (fst (onGetLocalBounds outRect n))
      = measureBitmap measured (mData n) (mLineHeight n) (mTextBounds n) /\
    (mMultiline n = true -> measured = mText n) /\
    (mMultiline n = false ->
     ~ In "010"%char (list_ascii_of_string measured) /\
     list_ascii_of_string measured
       = filter (fun c => negb (Ascii.eqb c "010"%char)) (list_ascii_of_string (mText n)) /\
     (~ In "010"%char (list_ascii_of_string (mText n)) -> measured = mText n)).
Proof.
  intros Hcache. unfold onGetLocalBounds. rewrite Hcache. cbv zeta.
  destruct (mMultiline n) eqn:Hml; cbn [Bool.eqb].
  - exists (mText n). split; [ | split; [ reflexivity | discriminate ] ].
    destruct (Bool.eqb (mAutoSize _) false); reflexivity.
  - exists (removeNewlines (mText n)). split; [ | split; [ discriminate | ] ].
    + destruct (Bool.eqb (mAutoSize _) false); reflexivity.
    + intros _. split; [ apply removeNewlines_no_newline | ].
      split; [ apply removeNewlines_filter | apply removeNewlines_fixes_single_line ].
Qed.

(** *** What one call of [onRender] leaves behind *)

Lemma renderDirty_after_onRender {R : Type} (reg : Renderer.t -> R)
    (parent : Renderer.t) (n : t) :
  DirtyFlag.independent_bits F ->
  renderDirty (fst (onRender reg parent n)) = false.
Proof.
  intros (i & j & Hi & Hj & Hij & ER & EC).
  rewrite onRender_mDirty, syncRenderCache_mDirty, syncRender_mDirty.
  rewrite ER, EC, !truthy_bitand_pow2 by lia.
  assert (H1 : Z.testbit (if Z.testbit (mDirty n) i
                           then Js.bitxor (mDirty n) (2 ^ i) else mDirty n) i = false).
  { destruct (Z.testbit (mDirty n) i) eqn:Hb; [ | exact Hb ].
    rewrite bitxor_spec, Z.min_l, Hb, Z.pow2_bits_true by lia. reflexivity. }
  destruct (_ && _); [ | exact H1 ].
  rewrite bitxor_other_bit by lia. exact H1.
Qed.

Lemma onRender_of_clean_node {R : Type} (reg : Renderer.t -> R)
    (parent : Renderer.t) (n : t) :
  renderDirty n = false -> cacheDirty n = false ->
  fst (onRender reg parent n)
  = set_mRenderer (Renderer.set_dirty (mDirty n) (mRenderer n)) n.
Proof.
  intros Hr Hc. unfold onRender, syncRender. rewrite Hr.
  unfold syncRenderCache. rewrite Hc. reflexivity.
Qed.

(** X2.  [RENDER] is always clear when [onRender] returns, whether or not
    the renderer turned out renderable, and so is it on every node of a path
    after the parent-first visit. *)
Theorem onRender_always_clears_RENDER {R : Type} (reg : Renderer.t -> R)
    (parent : Renderer.t) (n : t) (chain : list t) :
  DirtyFlag.independent_bits F ->
  renderDirty (fst (onRender reg parent n)) = false /\
  Forall (fun n' => renderDirty n' = false) (renderChain reg parent chain).
Proof.
  intros Hbits. split; [ now apply renderDirty_after_onRender | ].
  revert parent. induction chain as [ | m rest IH ]; intros parent; cbn [renderChain].
  - constructor.
  - constructor; [ now apply renderDirty_after_onRender | apply IH ].
Qed.

(** X3.  Once a call of [onRender] has serviced the node (the renderer was
    renderable if [RENDER_CACHE] was set), both flags are clear, and the next
    call does no work: whatever parent renderer it is given, it re-measures
    nothing and leaves the node and its renderer as they are, except that
    [renderer.dirty] now holds the clean mask. *)
Theorem onRender_after_sync_does_no_work {R : Type} (reg : Renderer.t -> R)
    (parent parent' : Renderer.t) (n : t) :
  DirtyFlag.independent_bits F ->
  (cacheDirty n = true ->
   isRenderable (mRenderer (rebuildCache (syncRender parent n))) = true) ->
  let n1 := fst (onRender reg parent n) in
  renderDirty n1 = false /\
  cacheDirty n1 = false /\
  fst (onRender reg parent' n1)
    = set_mRenderer (Renderer.set_dirty (mDirty n1) (mRenderer n1)) n1.
Proof.
  intros Hbits Hok n1.
  assert (Hr : renderDirty n1 = false) by now apply renderDirty_after_onRender.
  assert (Hc : cacheDirty n1 = false).
  { destruct (cacheDirty n) eqn:Hcache.
    - subst n1. rewrite (cacheDirty_after_onRender reg parent n Hbits Hcache).
      now rewrite Hok.
    - subst n1. rewrite onRender_mDirty, syncRenderCache_mDirty.
      pose proof (cacheDirty_after_syncRender parent n Hbits) as Hs.
      rewrite Hcache in Hs. now rewrite Hs. }
  split; [ exact Hr | ]. split; [ exact Hc | ].
  now apply onRender_of_clean_node.
Qed.

Local Abbreviation sameOwned n' n :=
  (mData n' = mData n /\ mText n' = mText n /\ mAutoSize n' = mAutoSize n /\
   mMultiline n' = mMultiline n /\ mLineHeight n' = mLineHeight n /\
   mBounds n' = mBounds n /\ mFieldWidth n' = mFieldWidth n /\
   mFieldHeight n' = mFieldHeight n).

Local Abbreviation sameInherited n' n :=
  (DisplayObject.mAlpha (super n') = DisplayObject.mAlpha (super n) /\
   DisplayObject.mBlendMode (super n') = DisplayObject.mBlendMode (super n) /\
   DisplayObject.mVisible (super n') = DisplayObject.mVisible (super n) /\
   DisplayObject.finalTransformation (super n')
     = DisplayObject.finalTransformation (super n)).

Lemma syncRender_owned (parent : Renderer.t) (n : t) :
  sameOwned (syncRender parent n) n /\
  sameInherited (syncRender parent n) n /\
  mTextBounds (syncRender parent n) = mTextBounds n.
Proof.
  unfold syncRender. destruct (renderDirty n); repeat split; reflexivity.
Qed.

Lemma rebuildCache_owned (n : t) :
  sameOwned (rebuildCache n) n /\ sameInherited (rebuildCache n) n.
Proof.
  unfold rebuildCache, onGetLocalBounds. cbv zeta.
  destruct (Js.truthy _); repeat split; reflexivity.
Qed.

Lemma syncRenderCache_owned (n : t) :
  sameOwned (syncRenderCache n) n /\
  sameInherited (syncRenderCache n) n /\
  (cacheDirty n = false -> mTextBounds (syncRenderCache n) = mTextBounds n).
Proof.
  unfold syncRenderCache. cbv zeta. destruct (cacheDirty n).
  - destruct (rebuildCache_owned n) as [Ho Hi].
    destruct (Bool.eqb _ true); (split; [ exact Ho | split; [ exact Hi | discriminate ] ]).
  - repeat split; reflexivity.
Qed.

Lemma set_mRenderer_fields (r : Renderer.t) (m : t) :
  mRenderer (set_mRenderer r m) = r /\
  mTextBounds (set_mRenderer r m) = mTextBounds m /\
  sameOwned (set_mRenderer r m) m /\
  sameInherited (set_mRenderer r m) m.
Proof. repeat split; reflexivity. Qed.

Lemma set_mDirty_fields (v : Z) (m : t) :
  mRenderer (set_mDirty v m) = mRenderer m /\
  mTextBounds (set_mDirty v m) = mTextBounds m /\
  sameOwned (set_mDirty v m) m /\
  sameInherited (set_mDirty v m) m.
Proof. repeat split; reflexivity. Qed.

Lemma onRender_fst {R : Type} (reg : Renderer.t -> R) (parent : Renderer.t) (n : t) :
  fst (onRender reg parent n)
  = set_mRenderer
      (Renderer.set_dirty (mDirty n) (mRenderer (syncRenderCache (syncRender parent n))))
      (syncRenderCache (syncRender parent n)).
Proof. reflexivity. Qed.

Lemma syncRenderCache_when_dirty (m : t) :
  cacheDirty m = true ->
  syncRenderCache m
  = if isRenderable (mRenderer (rebuildCache m))
    then set_mDirty (Js.bitxor (mDirty (rebuildCache m)) DirtyFlag.RENDER_CACHE)
           (rebuildCache m)
    else rebuildCache m.
Proof.
  intros H. unfold syncRenderCache. rewrite H. cbv zeta.
  destruct (isRenderable (mRenderer (rebuildCache m))); cbn [Bool.eqb]; reflexivity.
Qed.

Lemma onRender_owned {R : Type} (reg : Renderer.t -> R) (parent : Renderer.t) (n : t) :
  sameOwned (fst (onRender reg parent n)) n /\
  sameInherited (fst (onRender reg parent n)) n.
Proof.
  rewrite onRender_fst.
  destruct (syncRender_owned parent n)
    as ((A1 & A2 & A3 & A4 & A5 & A6 & A7 & A8) & (B1 & B2 & B3 & B4) & _).
  destruct (syncRenderCache_owned (syncRender parent n))
    as ((C1 & C2 & C3 & C4 & C5 & C6 & C7 & C8) & (D1 & D2 & D3 & D4) & _).
  destruct (set_mRenderer_fields
              (Renderer.set_dirty (mDirty n)
                 (mRenderer (syncRenderCache (syncRender parent n))))
              (syncRenderCache (syncRender parent n)))
    as (_ & _ & (G1 & G2 & G3 & G4 & G5 & G6 & G7 & G8) & (H1 & H2 & H3 & H4)).
  repeat split; congruence.
Qed.

(** X4.  [onRender] writes the mask, the renderer and the cached text
    bounds, and nothing else: the node's text, font data, sizing fields,
    alpha, blend mode, visibility and transformation are as before.  The
    renderer's [dirty] field ends up holding the mask the node had on
    entry, and the cached text bounds move only when [RENDER_CACHE] was
    set on entry. *)
Theorem onRender_touches_only_mask_renderer_and_cache {R : Type}
    (reg : Renderer.t -> R) (parent : Renderer.t) (n : t) :
  DirtyFlag.independent_bits F ->
  let n' := fst (onRender reg parent n) in
  (mData n' = mData n /\ mText n' = mText n /\ mAutoSize n' = mAutoSize n /\
   mMultiline n' = mMultiline n /\ mLineHeight n' = mLineHeight n /\
   mBounds n' = mBounds n /\ mFieldWidth n' = mFieldWidth n /\
   mFieldHeight n' = mFieldHeight n) /\
  (DisplayObject.mAlpha (super n') = DisplayObject.mAlpha (super n) /\
   DisplayObject.mBlendMode (super n') = DisplayObject.mBlendMode (super n) /\
   DisplayObject.mVisible (super n') = DisplayObject.mVisible (super n) /\
   DisplayObject.finalTransformation (super n')
     = DisplayObject.finalTransformation (super n)) /\
  Renderer.dirty (mRenderer n') = mDirty n /\
  (cacheDirty n = false -> mTextBounds n' = mTextBounds n).
Proof.
  intros Hbits n'.
  destruct (onRender_owned reg parent n) as [Ho Hi].
  split; [ exact Ho | ]. split; [ exact Hi | ].
  subst n'. rewrite onRender_fst.
  split; [ now rewrite (proj1 (set_mRenderer_fields _ _)) | ].
  intros Hclean.
  pose proof (cacheDirty_after_syncRender parent n Hbits) as Hs.
  rewrite Hclean in Hs.
  rewrite (proj1 (proj2 (set_mRenderer_fields _ _))).
  rewrite (proj2 (proj2 (syncRenderCache_owned _)) Hs). apply syncRender_owned.
Qed.

Lemma mDirty_set_mRenderer (r : Renderer.t) (m : t) :
  mDirty (set_mRenderer r m) = mDirty m.
Proof. reflexivity. Qed.

Lemma rebuildCache_content (m : t) :
  cacheDirty m = true ->
  let measured :=
    measureBitmap (if mMultiline m then mText m else removeNewlines (mText m))
      (mData m) (mLineHeight m) (mTextBounds m) in
  let r := mRenderer (rebuildCache m) in
  (Renderer.text r = mText m /\ Renderer.data r = mData m /\
   Renderer.multiline r = mMultiline m /\ Renderer.lineHeight r = mLineHeight m /\
   Renderer.fieldWidth r = mFieldWidth m /\ Renderer.fieldHeight r = mFieldHeight m /\
   Renderer.autoSize r = mAutoSize m) /\
  mTextBounds (rebuildCache m) = measured /\
  Renderer.bounds r
    = if mAutoSize m
      then Rectangle.mk 0 0 (Rectangle.width measured) (Rectangle.height measured)
      else Rectangle.mk 0 0 (mFieldWidth m) (mFieldHeight m).
Proof.
  intros Hcache. cbv zeta. unfold rebuildCache, onGetLocalBounds. cbv zeta.
  rewrite mDirty_set_mRenderer, Hcache.
  destruct m as [sup dat txt az ml lh bnd tb fw fh].
  cbn [mMultiline mAutoSize mText mData mLineHeight mTextBounds mFieldWidth
       mFieldHeight set_mRenderer set_super set_mTextBounds super text mRenderer].
  destruct ml, az; cbn [Bool.eqb]; repeat split; reflexivity.
Qed.

Local Abbreviation rebuilt_as q tb n :=
  ((Renderer.text q = mText n /\ Renderer.data q = mData n /\
    Renderer.multiline q = mMultiline n /\ Renderer.lineHeight q = mLineHeight n /\
    Renderer.fieldWidth q = mFieldWidth n /\ Renderer.fieldHeight q = mFieldHeight n /\
    Renderer.autoSize q = mAutoSize n) /\
   tb = measureBitmap (if mMultiline n then mText n else removeNewlines (mText n))
          (mData n) (mLineHeight n) (mTextBounds n) /\
   Renderer.bounds q
     = if mAutoSize n
       then Rectangle.mk 0 0
              (Rectangle.width
                 (measureBitmap (if mMultiline n then mText n else removeNewlines (mText n))
                    (mData n) (mLineHeight n) (mTextBounds n)))
              (Rectangle.height
                 (measureBitmap (if mMultiline n then mText n else removeNewlines (mText n))
                    (mData n) (mLineHeight n) (mTextBounds n)))
       else Rectangle.mk 0 0 (mFieldWidth n) (mFieldHeight n)).

Lemma rebuildCache_after_syncRender (parent : Renderer.t) (n : t) :
  cacheDirty (syncRender parent n) = true ->
  rebuilt_as (mRenderer (rebuildCache (syncRender parent n)))
    (mTextBounds (rebuildCache (syncRender parent n))) n.
Proof.
  intros Hs.
  pose proof (rebuildCache_content (syncRender parent n) Hs) as Hcontent.
  cbv zeta in Hcontent.
  destruct (syncRender_owned parent n)
    as ((E1 & E2 & E3 & E4 & E5 & E6 & E7 & E8) & _ & Htb).
  rewrite E1, E2, E3, E4, E5, E7, E8, Htb in Hcontent.
  exact Hcontent.
Qed.

Lemma rebuilt_survives_clear (b : bool) (d v : Z) (z n : t) :
  rebuilt_as (mRenderer z) (mTextBounds z) n ->
  let y := if b then set_mDirty v z else z in
  rebuilt_as (mRenderer (set_mRenderer (Renderer.set_dirty d (mRenderer y)) y))
    (mTextBounds (set_mRenderer (Renderer.set_dirty d (mRenderer y)) y)) n.
Proof.
  intros H. destruct b; exact H.
Qed.

(** X5.  When [RENDER_CACHE] is set on entry, [onRender] hands the
    renderer the node's text as it is (line feeds included, also in
    single-line mode), its font data and its sizing fields, measures the text
    (without line feeds in single-line mode) into [mTextBounds], and sets the
    renderer's bounds to a rectangle at the origin whose size is the measured
    size when [autoSize] is on and the field size when it is off. *)
Theorem onRender_rebuilds_renderer_content {R : Type}
    (reg : Renderer.t -> R) (parent : Renderer.t) (n : t) :
  DirtyFlag.independent_bits F ->
  cacheDirty n = true ->
  let n' := fst (onRender reg parent n) in
  let r := mRenderer n' in
  let measured :=
    measureBitmap (if mMultiline n then mText n else removeNewlines (mText n))
      (mData n) (mLineHeight n) (mTextBounds n) in
  (Renderer.text r = mText n /\ Renderer.data r = mData n /\
   Renderer.multiline r = mMultiline n /\ Renderer.lineHeight r = mLineHeight n /\
   Renderer.fieldWidth r = mFieldWidth n /\ Renderer.fieldHeight r = mFieldHeight n /\
   Renderer.autoSize r = mAutoSize n) /\
  mTextBounds n' = measured /\
  Renderer.bounds r
    = if mAutoSize n
      then Rectangle.mk 0 0 (Rectangle.width measured) (Rectangle.height measured)
      else Rectangle.mk 0 0 (mFieldWidth n) (mFieldHeight n).
Proof.
  intros Hbits Hcache.
  pose proof (cacheDirty_after_syncRender parent n Hbits) as Hs.
  rewrite Hcache in Hs.
  cbv zeta. rewrite onRender_fst, (syncRenderCache_when_dirty _ Hs).
  exact (rebuilt_survives_clear _ _ _ _ n (rebuildCache_after_syncRender parent n Hs)).
Qed.

(** *** A whole path *)

(** X6.  Along a root-to-leaf path of any length whose nodes are all due
    for [RENDER], the parent-first visit leaves in each renderer the node's
    alpha times the alpha of the renderer above it: the renderer alphas are
    the running products of the node alphas, starting from the alpha of the
    renderer the root is given.  The visit returns as many nodes as it was
    given. *)
Theorem renderChain_alphas_are_running_products {R : Type}
    (reg : Renderer.t -> R) (parent : Renderer.t) (chain : list t) :
  Forall (fun n => renderDirty n = true) chain ->
  map (fun n' => Renderer.alpha (mRenderer n')) (renderChain reg parent chain)
    = Spec.inheritedAlphas (Renderer.alpha parent)
        (map (fun n => DisplayObject.mAlpha (super n)) chain) /\
  List.length (renderChain reg parent chain) = List.length chain.
Proof.
  intros Hall. revert parent.
  induction Hall as [ | n rest Hn Hrest IH ]; intros parent.
  - split; reflexivity.
  - cbn [renderChain map Spec.inheritedAlphas List.length].
    destruct (IH (mRenderer (fst (onRender reg parent n)))) as [IHa IHl].
    rewrite IHa, IHl, (onRender_alpha reg parent n Hn). split; reflexivity.
Qed.

Lemma onRender_blendMode {R : Type} (reg : Renderer.t -> R)
    (parent : Renderer.t) (n : t) :
  renderDirty n = true ->
  Renderer.blendMode (mRenderer (fst (onRender reg parent n)))
  = if String.eqb (DisplayObject.mBlendMode (super n)) BlendMode.AUTO
    then Renderer.blendMode parent
    else DisplayObject.mBlendMode (super n).
Proof.
  intros Hdirty. rewrite (proj2 (onRender_sync_fields reg parent n)).
  unfold syncRender. rewrite Hdirty. reflexivity.
Qed.

(** X7.  [AUTO] is inherited through any depth: along a path whose nodes
    are all due for [RENDER], every node below the last node with a blend
    mode of its own gets that node's blend mode, and when every node of the
    path is [AUTO], every renderer gets the blend mode of the renderer the
    root was given. *)
Theorem renderChain_AUTO_inherits_through_depth {R : Type}
    (reg : Renderer.t -> R) (parent : Renderer.t) (above below : list t) (own : t) :
  Forall (fun n => renderDirty n = true) (above ++ own :: below) ->
  Forall (fun n => DisplayObject.mBlendMode (super n) = BlendMode.AUTO) below ->
  (Forall (fun n => DisplayObject.mBlendMode (super n) = BlendMode.AUTO) (above ++ [own]) ->
   Forall (fun n' => Renderer.blendMode (mRenderer n') = Renderer.blendMode parent)
     (renderChain reg parent (above ++ own :: below))) /\
  (DisplayObject.mBlendMode (super own) <> BlendMode.AUTO ->
   Forall (fun n' => Renderer.blendMode (mRenderer n')
                     = DisplayObject.mBlendMode (super own))
     (skipn (List.length above) (renderChain reg parent (above ++ own :: below)))).
Proof.
  assert (Hauto : forall chain p,
            Forall (fun n => renderDirty n = true) chain ->
            Forall (fun n => DisplayObject.mBlendMode (super n) = BlendMode.AUTO) chain ->
            Forall (fun n' => Renderer.blendMode (mRenderer n') = Renderer.blendMode p)
              (renderChain reg p chain)).
  { induction chain as [ | n rest IH ]; intros p Hd Ha; cbn [renderChain].
    - constructor.
    - inversion Hd as [ | ? ? Hn Hd' ]; inversion Ha as [ | ? ? An Ha' ]; subst.
      assert (E : Renderer.blendMode (mRenderer (fst (onRender reg p n)))
                  = Renderer.blendMode p)
        by now rewrite (onRender_blendMode reg p n Hn), An, String.eqb_refl.
      constructor; [ exact E | ].
      rewrite <- E. now apply IH. }
  intros Hdirty Hbelow. split.
  - intros Habove. apply Hauto; [ exact Hdirty | ].
    replace (above ++ own :: below) with ((above ++ [own]) ++ below)
      by now rewrite <- app_assoc.
    apply Forall_app. split; assumption.
  - intros Hown. revert parent Hdirty.
    induction above as [ | a rest IH ]; intros parent Hdirty.
    + cbn [app List.length skipn renderChain].
      inversion Hdirty as [ | ? ? Hn Hd' ]; subst.
      assert (E : Renderer.blendMode (mRenderer (fst (onRender reg parent own)))
                  = DisplayObject.mBlendMode (super own)).
      { rewrite (onRender_blendMode reg parent own Hn).
        apply String.eqb_neq in Hown. now rewrite Hown. }
      constructor; [ exact E | ].
      rewrite <- E. now apply Hauto.
    + cbn [app List.length skipn renderChain].
      inversion Hdirty as [ | ? ? Hn Hd' ]; subst. now apply IH.
Qed.

(** *** Setters given a new value *)

Lemma setDirty_cache_flag (m : t) :
  DirtyFlag.independent_bits F ->
  cacheDirty (setDirty DirtyFlag.RENDER_CACHE m) = true /\
  renderDirty (setDirty DirtyFlag.RENDER_CACHE m) = renderDirty m.
Proof.
  intros (i & j & Hi & Hj & Hij & ER & EC).
  change (mDirty (setDirty DirtyFlag.RENDER_CACHE m))
    with (Js.bitor (mDirty m) DirtyFlag.RENDER_CACHE).
  rewrite ER, EC, !truthy_bitand_pow2 by lia.
  split; [ now apply bitor_sets_bit | now apply bitor_other_bit ].
Qed.

(** X8.  A [BitmapTextField] setter that stores a value (a new text,
    field width, field height or [autoSize], or any [multiline] or
    [lineHeight]) sets [RENDER_CACHE] and leaves [RENDER] as it was: a
    content change alone asks for a rebuild, not for a new transform, alpha
    or blend mode. *)
Theorem text_setters_request_rebuild_only (n : t) :
  DirtyFlag.independent_bits F ->
  (forall v, String.eqb (mText n) v = false ->
     mText (set_text v n) = v /\
     cacheDirty (set_text v n) = true /\
     renderDirty (set_text v n) = renderDirty n) /\
  (forall v, Js.num_eq v (mFieldWidth n) = false ->
     mFieldWidth (set_fieldWidth v n) = v /\
     cacheDirty (set_fieldWidth v n) = true /\
     renderDirty (set_fieldWidth v n) = renderDirty n) /\
  (forall v, Js.num_eq v (mFieldHeight n) = false ->
     mFieldHeight (set_fieldHeight v n) = v /\
     cacheDirty (set_fieldHeight v n) = true /\
     renderDirty (set_fieldHeight v n) = renderDirty n) /\
  (forall v, Bool.eqb (mAutoSize n) v = false ->
     mAutoSize (set_autoSize v n) = v /\
     cacheDirty (set_autoSize v n) = true /\
     renderDirty (set_autoSize v n) = renderDirty n) /\
  (forall v,
     mMultiline (set_multiline v n) = v /\
     cacheDirty (set_multiline v n) = true /\
     renderDirty (set_multiline v n) = renderDirty n) /\
  (forall v,
     mLineHeight (set_lineHeight v n) = v /\
     cacheDirty (set_lineHeight v n) = true /\
     renderDirty (set_lineHeight v n) = renderDirty n).
Proof.
  intros Hbits.
  assert (Hmark : forall m m' : t,
            mDirty m' = mDirty m ->
            cacheDirty (setDirty DirtyFlag.RENDER_CACHE m') = true /\
            renderDirty (setDirty DirtyFlag.RENDER_CACHE m') = renderDirty m).
  { intros m m' E. destruct (setDirty_cache_flag m' Hbits) as [H1 H2].
    split; [ exact H1 | ]. now rewrite H2, E. }
  repeat apply conj.
  - intros v Hnew. unfold set_text. rewrite Hnew. cbv zeta.
    split; [ reflexivity | now apply Hmark ].
  - intros v Hnew. unfold set_fieldWidth. rewrite Hnew. cbv zeta.
    split; [ reflexivity | now apply Hmark ].
  - intros v Hnew. unfold set_fieldHeight. rewrite Hnew. cbv zeta.
    split; [ reflexivity | now apply Hmark ].
  - intros v Hnew. unfold set_autoSize. rewrite Hnew. cbv zeta.
    split; [ reflexivity | now apply Hmark ].
  - intros v. unfold set_multiline. cbv zeta.
    split; [ reflexivity | now apply Hmark ].
  - intros v. unfold set_lineHeight. cbv zeta.
    split; [ reflexivity | now apply Hmark ].
Qed.

End TextFieldProperties.

(** ** [Sprite]: texture, texture name and constructor *)

Section SpriteProperties.

Context {F : DirtyFlag.t} {A : DisplayObject.Anchors} {G : Assets}.

Variable textures : ref -> Texture.t.

Local Abbreviation flagged s :=
  (Js.truthy (Js.bitand (DisplayObject.mDirty (Sprite.super s)) DirtyFlag.RENDER) = true /\
   Js.truthy (Js.bitand (DisplayObject.mDirty (Sprite.super s)) DirtyFlag.RENDER_CACHE) = true).

Lemma both_flags_after_marking (o : DisplayObject.t) :
  DirtyFlag.independent_bits F ->
  let o' := DisplayObject.setRenderDirty (DisplayObject.setDirty DirtyFlag.RENDER_CACHE o) in
  Js.truthy (Js.bitand (DisplayObject.mDirty o') DirtyFlag.RENDER) = true /\
  Js.truthy (Js.bitand (DisplayObject.mDirty o') DirtyFlag.RENDER_CACHE) = true.
Proof.
  intros (i & j & Hi & Hj & Hij & ER & EC). cbv zeta.
  unfold DisplayObject.setRenderDirty, DisplayObject.setDirty.
  cbn [DisplayObject.mDirty DisplayObject.set_mDirty].
  rewrite ER, EC, !truthy_bitand_pow2 by lia. split.
  - now apply bitor_sets_bit.
  - rewrite bitor_other_bit by lia. now apply bitor_sets_bit.
Qed.

(** X9.  A sprite's texture cannot be cleared: assigning [null] to
    [texture] while the sprite holds a texture throws (the setter reads
    [texture.mSlice9borders]).  Assigning [null] when there is none returns
    at once and changes nothing. *)
Theorem set_texture_null_throws_or_is_ignored (s : Sprite.t) :
  (Sprite.mTexture s <> None ->
   exists message, Sprite.set_texture textures None s = Throw message) /\
  (Sprite.mTexture s = None -> Sprite.set_texture textures None s = Ok s).
Proof.
  unfold Sprite.set_texture. split.
  - intros Hheld. destruct (Sprite.mTexture s); [ | contradiction ].
    cbn [ref_eqb]. eexists. reflexivity.
  - intros ->. reflexivity.
Qed.

Lemma set_texture_stores_and_marks (s : Sprite.t) (p : ref) :
  DirtyFlag.independent_bits F ->
  ref_eqb (Sprite.mTexture s) (Some p) = false ->
  exists s',
    Sprite.set_texture textures (Some p) s = Ok s' /\
    Sprite.mTexture s' = Some p /\
    Sprite.mTextureName s' = Sprite.mTextureName s /\
    Sprite.mTiling s' = Sprite.mTiling s /\
    Sprite.mSlice9grid s'
      = match Texture.mSlice9borders (textures p) with
        | Some borders => Some borders
        | None => Sprite.mSlice9grid s
        end /\
    flagged s'.
Proof.
  intros Hbits Hnew. unfold Sprite.set_texture. rewrite Hnew. cbv zeta.
  eexists. split; [ reflexivity | ].
  destruct (Texture.mSlice9borders (textures p));
    (repeat (split; [ reflexivity | ])); apply (both_flags_after_marking _ Hbits).
Qed.


(** X10.  Assigning a texture other than the one held succeeds, stores the
    texture, leaves the texture name and the tiling alone, takes the nine-
    slice grid from the texture's borders when it has some, and always ends
    with both [RENDER] and [RENDER_CACHE] set, whatever the anchor setters
    called on the way do to the node. *)
Theorem set_texture_new_marks_both_flags (s : Sprite.t) (p : ref) :
  DirtyFlag.independent_bits F ->
  ref_eqb (Sprite.mTexture s) (Some p) = false ->
  exists s',
    Sprite.set_texture textures (Some p) s = Ok s' /\
    Sprite.mTexture s' = Some p /\
    Sprite.mTextureName s' = Sprite.mTextureName s /\
    Sprite.mTiling s' = Sprite.mTiling s /\
    Sprite.mSlice9grid s'
      = match Texture.mSlice9borders (textures p) with
        | Some borders => Some borders
        | None => Sprite.mSlice9grid s
        end /\
    flagged s'.
Proof.
  intros Hbits Hnew. unfold Sprite.set_texture. rewrite Hnew. cbv zeta.
  eexists. split; [ reflexivity | ].
  destruct (Texture.mSlice9borders (textures p));
    (repeat (split; [ reflexivity | ])); apply (both_flags_after_marking _ Hbits).
Qed.

Lemma name_eqb_refl (v : option string) : Sprite.name_eqb v v = true.
Proof. destruct v; [ apply String.eqb_refl | reflexivity ]. Qed.

(** X11.  Assigning [textureName] the name already held changes nothing.
    Assigning another name that the asset manager resolves to the texture
    already held only changes the name: no flag is set.  Assigning a name
    the asset manager does not know to a sprite that holds a texture
    throws. *)
Theorem set_textureName_by_resolution (s : Sprite.t) (value : option string) :
  (Sprite.set_textureName textures (Sprite.textureName s) s = Ok s) /\
  (Sprite.name_eqb (Sprite.mTextureName s) value = false ->
   ref_eqb (Sprite.mTexture s) (getTexture value) = true ->
   Sprite.set_textureName textures value s
   = Ok (Sprite.mk (Sprite.super s) (Sprite.mTexture s) value
           (Sprite.mTiling s) (Sprite.mSlice9grid s))) /\
  (Sprite.name_eqb (Sprite.mTextureName s) value = false ->
   getTexture value = None -> Sprite.mTexture s <> None ->
   exists message, Sprite.set_textureName textures value s = Throw message).
Proof.
  unfold Sprite.set_textureName, Sprite.textureName. repeat apply conj.
  - now rewrite name_eqb_refl.
  - intros Hnew Hsame. rewrite Hnew. cbv zeta.
    unfold Sprite.set_texture. cbn [Sprite.mTexture]. now rewrite Hsame.
  - intros Hnew Hunknown Hheld. rewrite Hnew, Hunknown. cbv zeta.
    unfold Sprite.set_texture. cbn [Sprite.mTexture].
    destruct (Sprite.mTexture s); [ | contradiction ].
    cbn [ref_eqb]. eexists. reflexivity.
Qed.

(** X12.  The constructor never throws on a missing texture: with no
    argument (or [null]) it returns a sprite without texture and with the
    mask [super()] left; with a name the asset manager does not know it
    returns a sprite that has the name but no texture, again with the mask
    untouched.  With a texture, or a name that resolves to one, the sprite
    holds that texture and has both [RENDER] and [RENDER_CACHE] set. *)
Theorem new_sprite_by_argument (base : DisplayObject.t) :
  DirtyFlag.independent_bits F ->
  Sprite.new textures base (Sprite.ByTexture None)
    = Ok (Sprite.mk base None None None None) /\
  (forall name, getTexture (Some name) = None ->
     Sprite.new textures base (Sprite.ByName name)
     = Ok (Sprite.mk base None (Some name) None None)) /\
  (forall p, exists s',
     Sprite.new textures base (Sprite.ByTexture (Some p)) = Ok s' /\
     Sprite.mTexture s' = Some p /\ Sprite.mTextureName s' = None /\ flagged s') /\
  (forall name p, getTexture (Some name) = Some p ->
     exists s',
       Sprite.new textures base (Sprite.ByName name) = Ok s' /\
       Sprite.mTexture s' = Some p /\ Sprite.mTextureName s' = Some name /\ flagged s').
Proof.
  intros Hbits. unfold Sprite.new. cbv zeta. repeat apply conj.
  - reflexivity.
  - intros name Hunknown. now rewrite Hunknown.
  - intros p.
    destruct (set_texture_stores_and_marks
                (Sprite.mk base None None None None) p Hbits eq_refl)
      as (s' & Hs & Ht & Hn & _ & _ & Hf).
    exists s'. repeat split; try assumption; apply Hf.
  - intros name p Hknown. rewrite Hknown.
    destruct (set_texture_stores_and_marks
                (Sprite.mk base None (Some name) None None) p Hbits eq_refl)
      as (s' & Hs & Ht & Hn & _ & _ & Hf).
    exists s'. repeat split; try assumption; apply Hf.
Qed.

End SpriteProperties.

(** ** More facts about binary64 numbers *)

(** [NaN] compares equal to nothing. *)
Lemma num_eq_NaN (x y : float) : Js.isNaN x = true -> Js.num_eq x y = false.
Proof.
  unfold Js.isNaN, Js.num_eq. intros Hnan. rewrite eqb_spec.
  unfold Prim2SF at 1. now rewrite Hnan.
Qed.

Lemma Prim2SF_negative_zero (x : float) :
  Prim2SF x = S754_zero true -> Spec.isNegativeZero x = true.
Proof.
  unfold Prim2SF, Spec.isNegativeZero.
  destruct (is_nan x); [ discriminate | ].
  destruct (is_zero x).
  - intros H. injection H as ->. reflexivity.
  - destruct (is_infinity x); [ discriminate | ].
    destruct (Z.frexp x) as [r e].
    destruct (shr_fexp _ _ _ _ _) as [shr e'].
    destruct (shr_m shr); discriminate.
Qed.

(** Adding zero on the left changes a number only when it is negative
    zero. *)
Lemma zero_add (x : float) : Spec.isNegativeZero x = false -> (0 + x)%float = x.
Proof.
  intros Hx. apply Prim2SF_inj. rewrite add_spec.
  replace (Prim2SF 0) with (S754_zero false) by reflexivity.
  pose proof (Prim2SF_negative_zero x) as Hneg.
  destruct (Prim2SF x) as [[|] | s | | s m e]; try reflexivity.
  rewrite Hneg in Hx by reflexivity. discriminate.
Qed.

(** ** More on the canvas driver *)

Section MoreDriverProperties.

Import CanvasDriver.

Context {B : BlendMode.t} {E : CanvasDriver.Environment}.

(** X13.  Writing the same alpha twice in a row reaches the context once:
    for a value that is not [NaN], a second [globalAlpha = x] finds the
    shadow value equal and leaves the driver as the first write left it.
    [NaN] never equals the shadow value and is written on every call. *)
Theorem set_globalAlpha_writes_once (x : Js.number) (d : CanvasDriver.t) :
  (Js.isNaN x = false ->
   set_globalAlpha x (set_globalAlpha x d) = set_globalAlpha x d) /\
  (Js.isNaN x = true ->
   mCtx (set_globalAlpha x (set_globalAlpha x d))
   = mCtx d ++ [ctx_globalAlpha x; ctx_globalAlpha x]).
Proof.
  split; intros Hx.
  - unfold set_globalAlpha at 2 3.
    destruct (Js.num_eq x (mGlobalAlpha d)) eqn:Heq.
    + unfold set_globalAlpha. now rewrite Heq.
    + unfold set_globalAlpha. cbn [mGlobalAlpha call set_mGlobalAlpha].
      now rewrite (num_eq_refl x Hx).
  - unfold set_globalAlpha. rewrite !(num_eq_NaN x _ Hx). cbn.
    now rewrite <- app_assoc.
Qed.

Lemma JsStr_eqb_refl (v : JsStr) : JsStr_eqb v v = true.
Proof. destruct v; try reflexivity. apply String.eqb_refl. Qed.

(** X14.  [globalBlendMode] writes on change only, for every blend mode:
    a second [globalBlendMode = y] leaves the driver as the first left it.
    After an assignment other than [AUTO] the shadow value is the entry of
    [CanvasBlendMode] for [y] ([undefined] when the table has none), and an
    assignment of [AUTO] changes nothing at all. *)
Theorem set_globalBlendMode_writes_on_change (y : string) (d : CanvasDriver.t) :
  set_globalBlendMode y (set_globalBlendMode y d) = set_globalBlendMode y d /\
  (String.eqb y BlendMode.AUTO = false ->
   mGlobalBlendMode (set_globalBlendMode y d)
   = match CanvasBlendMode y with Some s => Str s | None => Undefined end) /\
  set_globalBlendMode BlendMode.AUTO d = d.
Proof.
  repeat apply conj.
  - unfold set_globalBlendMode at 2 3.
    destruct (String.eqb y BlendMode.AUTO) eqn:Hauto.
    + unfold set_globalBlendMode. now rewrite Hauto.
    + destruct (JsStr_eqb (mGlobalBlendMode d) _) eqn:Heq.
      * unfold set_globalBlendMode. now rewrite Hauto, Heq.
      * unfold set_globalBlendMode. rewrite Hauto.
        cbn [mGlobalBlendMode call set_mGlobalBlendMode].
        now rewrite JsStr_eqb_refl.
  - intros Hauto. unfold set_globalBlendMode. rewrite Hauto.
    destruct (JsStr_eqb (mGlobalBlendMode d) _) eqn:Heq; [ | reflexivity ].
    destruct (mGlobalBlendMode d) as [ | | s ], (CanvasBlendMode y) as [ t | ];
      cbn in Heq; try discriminate; try reflexivity.
    apply String.eqb_eq in Heq. now subst.
  - unfold set_globalBlendMode. now rewrite String.eqb_refl.
Qed.

(** X15.  With both offsets zero, [drawTextureWithOffset] draws what
    [drawTexture] draws, provided the untrimmed origin of the texture is not
    negative zero (adding [0] to negative zero gives positive zero). *)
Theorem drawTextureWithOffset_zero_is_drawTexture
    (tex : Texture.t) (d : CanvasDriver.t) :
  Spec.isNegativeZero (Rectangle.x (Texture.untrimmedRegion tex)) = false ->
  Spec.isNegativeZero (Rectangle.y (Texture.untrimmedRegion tex)) = false ->
  drawTextureWithOffset tex 0 0 d = drawTexture tex d.
Proof.
  intros Hx Hy. unfold drawTextureWithOffset, drawTexture. cbv zeta.
  now rewrite (zero_add _ Hx), (zero_add _ Hy).
Qed.

End MoreDriverProperties.

(** ** Tweens: how [play], [pause], [stop] and [reset] compose *)

Section TweenProperties.

Import Tween.

(** X16.  Pausing a playing tween and playing it again resumes it: it is
    playing and not paused, and its start time has moved forward by the time
    spent paused, [uptime at play - uptime at pause]; the delay is not applied
    again and nothing else changes.  A pause during a pause moves the pause
    time: only the time since the last [pause()] is counted. *)
Theorem pause_then_play_resumes (w : Tween.t) (t1 t2 t3 : Js.number) :
  mIsPlaying w = true ->
  play t2 (pause t1 w)
    = set_mStartTime (mStartTime w + (t2 - t1))
        (set_mPausedTime t1 (set_mIsPaused false w)) /\
  play t3 (pause t2 (pause t1 w)) = play t3 (pause t2 w).
Proof.
  intros Hplaying. destruct w. cbn in Hplaying. subst.
  split; reflexivity.
Qed.

(** X17.  Stopping a paused tween does not clear the pause.  The next
    [play()] then only resumes: it clears the pause and shifts the start
    time, but the tween is still not playing.  A second [play()] starts it,
    at [uptime + delay]. *)
Theorem play_after_pause_and_stop_does_not_start (w : Tween.t) (t1 t2 t3 : Js.number) :
  mIsPlaying w = true ->
  let stopped := stop (pause t1 w) in
  let once := play t2 stopped in
  let twice := play t3 once in
  (mIsPlaying stopped = false /\ mIsPaused stopped = true) /\
  (mIsPlaying once = false /\ mIsPaused once = false /\
   mStartTime once = (mStartTime w + (t2 - t1))%float) /\
  (mIsPlaying twice = true /\ mIsPaused twice = false /\
   mStartTime twice = (t3 + mDelay w)%float).
Proof.
  intros Hplaying. destruct w. cbn in Hplaying. subst.
  repeat split; reflexivity.
Qed.

(** X18.  [reset()] always zeroes the elapsed fraction.  On a tween that
    is not playing it does nothing else.  On a playing tween that is not
    paused it restarts the tween at [uptime + delay].  On a playing tween
    that is paused it does not restart: it resumes the tween, shifting the
    start time by the time spent paused. *)
Theorem reset_restarts_or_resumes (w : Tween.t) (uptime : Js.number) :
  mElapsed (reset uptime w) = 0%float /\
  (mIsPlaying w = false -> reset uptime w = set_mElapsed 0 w) /\
  (mIsPlaying w = true -> mIsPaused w = false ->
   reset uptime w = __start uptime (set_mElapsed 0 w) /\
   mStartTime (reset uptime w) = (uptime + mDelay w)%float) /\
  (mIsPlaying w = true -> mIsPaused w = true ->
   mIsPlaying (reset uptime w) = true /\
   mIsPaused (reset uptime w) = false /\
   mStartTime (reset uptime w)
     = (mStartTime w + (uptime - mPausedTime w))%float).
Proof.
  destruct w as [? ? ? playing paused ? ? ? ? ? ? ? ? ? ? ? ? ?].
  cbn [mIsPlaying mIsPaused].
  split; [ destruct playing, paused; reflexivity | ].
  repeat split; intros; subst; try discriminate; reflexivity.
Qed.

End TweenProperties.

(** ** The further properties on concrete inputs *)

Example drawTextureWithOffset_zero_negative_zero :
  CanvasDriver.drawTextureWithOffset
    (Texture.mk 7%positive (Rectangle.mk 0 0 8 8) (Rectangle.mk (-0) 0 8 8) 8 8 true None 0 0)
    0 0 (Sample.driver false)
  = Ok (CanvasDriver.call (CanvasDriver.drawImage 7%positive 0 0 8 8 0 0 16 16)
          (Sample.driver false)) /\
  CanvasDriver.drawTexture
    (Texture.mk 7%positive (Rectangle.mk 0 0 8 8) (Rectangle.mk (-0) 0 8 8) 8 8 true None 0 0)
    (Sample.driver false)
  = Ok (CanvasDriver.call (CanvasDriver.drawImage 7%positive 0 0 8 8 (-0) 0 16 16)
          (Sample.driver false)).
Proof. split; reflexivity. Qed.

Lemma onGetLocalBounds_measures_without_newlines_witness :
  Js.truthy (Js.bitand (BitmapTextField.mDirty (Sample.field 16 1 Sample.twoLines))
               (@DirtyFlag.RENDER_CACHE Sample.flags)) = true /\
  exists measured : string,
    BitmapTextField.mTextBounds
      (fst (BitmapTextField.onGetLocalBounds (F := Sample.flags)
              (C := Sample.collaborators) None (Sample.field 16 1 Sample.twoLines)))
    = @measureBitmap Sample.collaborators measured 1%positive 1.2 Rectangle.new /\
    ~ In "010"%char (list_ascii_of_string measured).
Proof.
  split; [ reflexivity | ].
  destruct (onGetLocalBounds_measures_without_newlines
              (F := Sample.flags) (C := Sample.collaborators)
              None (Sample.field 16 1 Sample.twoLines) eq_refl)
    as (measured & Hm & _ & Hsingle).
  exists measured. split; [ exact Hm | exact (proj1 (Hsingle eq_refl)) ].
Defined.

Example onGetLocalBounds_two_lines :
  snd (BitmapTextField.onGetLocalBounds (F := Sample.flags) (C := Sample.collaborators)
         None (Sample.field 16 1 Sample.twoLines))
  = Rectangle.mk 0 0 32 1.2 /\
  String.length Sample.twoLines = 5%nat.
Proof. split; reflexivity. Qed.

Lemma onRender_always_clears_RENDER_witness :
  DirtyFlag.independent_bits Sample.flags /\
  Js.truthy
    (Js.bitand
       (BitmapTextField.mDirty
          (fst (BitmapTextField.onRender (F := Sample.flags) (B := Sample.blend)
                  (C := Sample.collaborators) (fun _ => tt) Sample.renderer
                  (Sample.field 0xffffff 1 ""))))
       (@DirtyFlag.RENDER Sample.flags)) = false.
Proof.
  split; [ exact sample_flags_independent | ].
  exact (proj1 (onRender_always_clears_RENDER
                  (F := Sample.flags) (B := Sample.blend) (C := Sample.collaborators)
                  (fun _ => tt) Sample.renderer (Sample.field 0xffffff 1 "") []
                  sample_flags_independent)).
Defined.

Lemma onRender_after_sync_does_no_work_witness :
  DirtyFlag.independent_bits Sample.flags /\
  BitmapTextField.mDirty
    (fst (BitmapTextField.onRender (F := Sample.flags) (B := Sample.blend)
            (C := Sample.collaborators) (fun _ => tt) Sample.renderer
            (Sample.field 24 0.5 "hi"))) = 0 /\
  Renderer.alpha
    (BitmapTextField.mRenderer
       (fst (BitmapTextField.onRender (F := Sample.flags) (B := Sample.blend)
               (C := Sample.collaborators) (fun _ => tt)
               (Renderer.set_sync Sample.identity 0.25 "multiply" true Sample.renderer)
               (fst (BitmapTextField.onRender (F := Sample.flags) (B := Sample.blend)
                       (C := Sample.collaborators) (fun _ => tt) Sample.renderer
                       (Sample.field 24 0.5 "hi")))))) = 0.5%float.
Proof.
  split; [ exact sample_flags_independent | ].
  split; [ reflexivity | ].
  rewrite (proj2 (proj2 (onRender_after_sync_does_no_work
             (F := Sample.flags) (B := Sample.blend) (C := Sample.collaborators)
             (fun _ => tt) Sample.renderer
             (Renderer.set_sync Sample.identity 0.25 "multiply" true Sample.renderer)
             (Sample.field 24 0.5 "hi") sample_flags_independent (fun _ => eq_refl)))).
  reflexivity.
Defined.

Lemma onRender_touches_only_mask_renderer_and_cache_witness :
  DirtyFlag.independent_bits Sample.flags /\
  BitmapTextField.mText
    (fst (BitmapTextField.onRender (F := Sample.flags) (B := Sample.blend)
            (C := Sample.collaborators) (fun _ => tt) Sample.renderer
            (Sample.field 24 0.5 "hi"))) = "hi" /\
  Renderer.dirty
    (BitmapTextField.mRenderer
       (fst (BitmapTextField.onRender (F := Sample.flags) (B := Sample.blend)
               (C := Sample.collaborators) (fun _ => tt) Sample.renderer
               (Sample.field 24 0.5 "hi")))) = 24.
Proof.
  split; [ exact sample_flags_independent | ].
  destruct (onRender_touches_only_mask_renderer_and_cache
              (F := Sample.flags) (B := Sample.blend) (C := Sample.collaborators)
              (fun _ => tt) Sample.renderer (Sample.field 24 0.5 "hi")
              sample_flags_independent)
    as ((_ & Htext & _) & _ & Hdirty & _).
  split; [ exact Htext | exact Hdirty ].
Defined.

Lemma onRender_rebuilds_renderer_content_witness :
  DirtyFlag.independent_bits Sample.flags /\
  Js.truthy (Js.bitand (BitmapTextField.mDirty (Sample.field 24 1 Sample.twoLines))
               (@DirtyFlag.RENDER_CACHE Sample.flags)) = true /\
  Renderer.text
    (BitmapTextField.mRenderer
       (fst (BitmapTextField.onRender (F := Sample.flags) (B := Sample.blend)
               (C := Sample.collaborators) (fun _ => tt) Sample.renderer
               (Sample.field 24 1 Sample.twoLines)))) = Sample.twoLines /\
  Renderer.bounds
    (BitmapTextField.mRenderer
       (fst (BitmapTextField.onRender (F := Sample.flags) (B := Sample.blend)
               (C := Sample.collaborators) (fun _ => tt) Sample.renderer
               (Sample.field 24 1 Sample.twoLines)))) = Rectangle.mk 0 0 32 1.2.
Proof.
  split; [ exact sample_flags_independent | ].
  split; [ reflexivity | ].
  destruct (onRender_rebuilds_renderer_content
              (F := Sample.flags) (B := Sample.blend) (C := Sample.collaborators)
              (fun _ => tt) Sample.renderer (Sample.field 24 1 Sample.twoLines)
              sample_flags_independent eq_refl)
    as ((Htext & _) & _ & Hbounds).
  split; [ exact Htext | exact Hbounds ].
Defined.

Lemma renderChain_alphas_are_running_products_witness :
  Forall (fun n => Js.truthy (Js.bitand (BitmapTextField.mDirty n)
                                (@DirtyFlag.RENDER Sample.flags)) = true)
    [Sample.field 8 0.5 "root"; Sample.field 8 0.8 "A"; Sample.field 8 1 "B";
     Sample.field 8 0.5 "C"] /\
  map (fun n' => Renderer.alpha (BitmapTextField.mRenderer n'))
    (BitmapTextField.renderChain (F := Sample.flags) (B := Sample.blend)
       (C := Sample.collaborators) (fun _ => tt) Sample.renderer
       [Sample.field 8 0.5 "root"; Sample.field 8 0.8 "A"; Sample.field 8 1 "B";
        Sample.field 8 0.5 "C"])
  = [0.5; 0.4; 0.4; 0.2]%float.
Proof.
  assert (H : Forall (fun n => Js.truthy (Js.bitand (BitmapTextField.mDirty n)
                                            (@DirtyFlag.RENDER Sample.flags)) = true)
                [Sample.field 8 0.5 "root"; Sample.field 8 0.8 "A"; Sample.field 8 1 "B";
                 Sample.field 8 0.5 "C"])
    by (repeat constructor).
  split; [ exact H | ].
  exact (proj1 (renderChain_alphas_are_running_products
                  (F := Sample.flags) (B := Sample.blend) (C := Sample.collaborators)
                  (fun _ => tt) Sample.renderer _ H)).
Defined.

Lemma renderChain_AUTO_inherits_through_depth_witness :
  Forall (fun n' => Renderer.blendMode (BitmapTextField.mRenderer n') = "normal")
    (BitmapTextField.renderChain (F := Sample.flags) (B := Sample.blend)
       (C := Sample.collaborators) (fun _ => tt) Sample.renderer
       [Sample.field 8 1 "root"; Sample.field 8 1 "A"; Sample.field 8 1 "B"]).
Proof.
  apply (proj1 (renderChain_AUTO_inherits_through_depth
                  (F := Sample.flags) (B := Sample.blend) (C := Sample.collaborators)
                  (fun _ => tt) Sample.renderer
                  [Sample.field 8 1 "root"] [Sample.field 8 1 "B"] (Sample.field 8 1 "A")
                  ltac:(repeat constructor) ltac:(repeat constructor))).
  repeat constructor.
Defined.

Lemma text_setters_request_rebuild_only_witness :
  DirtyFlag.independent_bits Sample.flags /\
  String.eqb (BitmapTextField.mText (Sample.field 8 1 "old")) "new" = false /\
  BitmapTextField.mText
    (BitmapTextField.set_text (F := Sample.flags) "new" (Sample.field 8 1 "old")) = "new" /\
  Js.truthy
    (Js.bitand
       (BitmapTextField.mDirty
          (BitmapTextField.set_text (F := Sample.flags) "new" (Sample.field 8 1 "old")))
       (@DirtyFlag.RENDER_CACHE Sample.flags)) = true.
Proof.
  split; [ exact sample_flags_independent | ].
  split; [ reflexivity | ].
  destruct (proj1 (text_setters_request_rebuild_only (F := Sample.flags)
                     (Sample.field 8 1 "old") sample_flags_independent)
              "new" eq_refl) as (Ht & Hc & _).
  split; [ exact Ht | exact Hc ].
Defined.

Lemma set_texture_null_throws_or_is_ignored_witness :
  Sprite.mTexture (Sample.sprite 0 (Some 7%positive)) <> None /\
  (exists message,
     Sprite.set_texture (F := Sample.flags) (A := Sample.anchors) Sample.textures
       None (Sample.sprite 0 (Some 7%positive)) = Throw message) /\
  Sprite.set_texture (F := Sample.flags) (A := Sample.anchors) Sample.textures
    None (Sample.sprite 0 None) = Ok (Sample.sprite 0 None).
Proof.
  assert (H : Sprite.mTexture (Sample.sprite 0 (Some 7%positive)) <> None)
    by discriminate.
  split; [ exact H | ]. split.
  - exact (proj1 (set_texture_null_throws_or_is_ignored
                    (F := Sample.flags) (A := Sample.anchors) Sample.textures
                    (Sample.sprite 0 (Some 7%positive))) H).
  - exact (proj2 (set_texture_null_throws_or_is_ignored
                    (F := Sample.flags) (A := Sample.anchors) Sample.textures
                    (Sample.sprite 0 None)) eq_refl).
Defined.

Lemma set_texture_new_marks_both_flags_witness :
  DirtyFlag.independent_bits Sample.flags /\
  ref_eqb (Sprite.mTexture (Sample.sprite 0 (Some 7%positive))) (Some 9%positive) = false /\
  exists s',
    Sprite.set_texture (F := Sample.flags) (A := Sample.anchors) Sample.textures
      (Some 9%positive) (Sample.sprite 0 (Some 7%positive)) = Ok s' /\
    Sprite.mTexture s' = Some 9%positive /\
    DisplayObject.mDirty (Sprite.super s') = 24.
Proof.
  split; [ exact sample_flags_independent | ].
  split; [ reflexivity | ].
  destruct (set_texture_new_marks_both_flags
              (F := Sample.flags) (A := Sample.anchors) Sample.textures
              (Sample.sprite 0 (Some 7%positive)) 9%positive
              sample_flags_independent eq_refl)
    as (s' & Hs & Ht & _).
  exists s'. split; [ exact Hs | ]. split; [ exact Ht | ].
  injection Hs as <-. reflexivity.
Defined.

Lemma set_textureName_by_resolution_witness :
  Sprite.name_eqb (Sprite.mTextureName (Sample.sprite 0 (Some 7%positive))) (Some "hero") = false /\
  ref_eqb (Sprite.mTexture (Sample.sprite 0 (Some 7%positive)))
    (@getTexture Sample.assets (Some "hero")) = true /\
  Sprite.set_textureName (F := Sample.flags) (A := Sample.anchors) (G := Sample.assets)
    Sample.textures (Some "hero") (Sample.sprite 0 (Some 7%positive))
  = Ok (Sprite.mk (Sprite.super (Sample.sprite 0 (Some 7%positive))) (Some 7%positive)
          (Some "hero") None None) /\
  (exists message,
     Sprite.set_textureName (F := Sample.flags) (A := Sample.anchors) (G := Sample.assets)
       Sample.textures (Some "ghost") (Sample.sprite 0 (Some 7%positive)) = Throw message).
Proof.
  split; [ reflexivity | ]. split; [ reflexivity | ].
  destruct (set_textureName_by_resolution
              (F := Sample.flags) (A := Sample.anchors) (G := Sample.assets)
              Sample.textures (Sample.sprite 0 (Some 7%positive)) (Some "hero"))
    as (_ & Hrename & _).
  destruct (set_textureName_by_resolution
              (F := Sample.flags) (A := Sample.anchors) (G := Sample.assets)
              Sample.textures (Sample.sprite 0 (Some 7%positive)) (Some "ghost"))
    as (_ & _ & Hthrow).
  split; [ exact (Hrename eq_refl eq_refl) | ].
  apply Hthrow; [ reflexivity | reflexivity | discriminate ].
Defined.

Lemma new_sprite_by_argument_witness :
  DirtyFlag.independent_bits Sample.flags /\
  Sprite.new (F := Sample.flags) (A := Sample.anchors) (G := Sample.assets)
    Sample.textures (DisplayObject.mk 0 1 "auto" true Sample.identity Sample.renderer)
    (Sprite.ByName "ghost")
  = Ok (Sprite.mk (DisplayObject.mk 0 1 "auto" true Sample.identity Sample.renderer)
          None (Some "ghost") None None) /\
  exists s',
    Sprite.new (F := Sample.flags) (A := Sample.anchors) (G := Sample.assets)
      Sample.textures (DisplayObject.mk 0 1 "auto" true Sample.identity Sample.renderer)
      (Sprite.ByName "coin") = Ok s' /\
    Sprite.mTexture s' = Some 9%positive /\
    Sprite.mTextureName s' = Some "coin".
Proof.
  split; [ exact sample_flags_independent | ].
  destruct (new_sprite_by_argument
              (F := Sample.flags) (A := Sample.anchors) (G := Sample.assets)
              Sample.textures (DisplayObject.mk 0 1 "auto" true Sample.identity Sample.renderer)
              sample_flags_independent)
    as (_ & Hunknown & _ & Hknown).
  split; [ exact (Hunknown "ghost" eq_refl) | ].
  destruct (Hknown "coin" 9%positive eq_refl) as (s' & Hs & Ht & Hn & _).
  exists s'. repeat split; assumption.
Defined.

Lemma set_globalAlpha_writes_once_witness :
  Js.isNaN 0.5 = false /\
  CanvasDriver.mCtx
    (CanvasDriver.set_globalAlpha 0.5 (CanvasDriver.set_globalAlpha 0.5 (Sample.driver false)))
  = [CanvasDriver.ctx_globalAlpha 0.5] /\
  Js.isNaN nan = true /\
  CanvasDriver.mCtx
    (CanvasDriver.set_globalAlpha nan (CanvasDriver.set_globalAlpha nan (Sample.driver false)))
  = [CanvasDriver.ctx_globalAlpha nan; CanvasDriver.ctx_globalAlpha nan].
Proof.
  split; [ reflexivity | ]. split.
  - rewrite (proj1 (set_globalAlpha_writes_once 0.5 (Sample.driver false)) eq_refl).
    reflexivity.
  - split; [ reflexivity | ].
    exact (proj2 (set_globalAlpha_writes_once nan (Sample.driver false)) eq_refl).
Defined.

Lemma set_globalBlendMode_writes_on_change_witness :
  String.eqb "add" (@BlendMode.AUTO Sample.blend) = false /\
  CanvasDriver.mCtx
    (CanvasDriver.set_globalBlendMode (B := Sample.blend) (E := Sample.environment) "add"
       (CanvasDriver.set_globalBlendMode (B := Sample.blend) (E := Sample.environment) "add"
          (Sample.driver false)))
  = [CanvasDriver.ctx_globalCompositeOperation (Str "lighter")] /\
  CanvasDriver.mGlobalBlendMode
    (CanvasDriver.set_globalBlendMode (B := Sample.blend) (E := Sample.environment) "add"
       (Sample.driver false)) = Str "lighter".
Proof.
  split; [ reflexivity | ].
  destruct (set_globalBlendMode_writes_on_change
              (B := Sample.blend) (E := Sample.environment) "add" (Sample.driver false))
    as (Htwice & Hshadow & _).
  split; [ rewrite Htwice; reflexivity | exact (Hshadow eq_refl) ].
Defined.

Lemma drawTextureWithOffset_zero_is_drawTexture_witness :
  Spec.isNegativeZero (Rectangle.x (Texture.untrimmedRegion (Sample.texture true))) = false /\
  Spec.isNegativeZero (Rectangle.y (Texture.untrimmedRegion (Sample.texture true))) = false /\
  CanvasDriver.drawTextureWithOffset (Sample.texture true) 0 0 (Sample.driver false)
  = CanvasDriver.drawTexture (Sample.texture true) (Sample.driver false).
Proof.
  split; [ reflexivity | ]. split; [ reflexivity | ].
  exact (drawTextureWithOffset_zero_is_drawTexture
           (Sample.texture true) (Sample.driver false) eq_refl eq_refl).
Defined.

(** A tween started at 10 with a delay of 0.5, paused at 11 and played
    again at 14: its start time moves from 10.5 to 13.5. *)
Lemma pause_then_play_resumes_witness :
  Tween.mIsPlaying (Sample.tween 10) = true /\
  Tween.mStartTime (Sample.tween 10) = 10.5%float /\
  Tween.mStartTime (Tween.play 14 (Tween.pause 11 (Sample.tween 10))) = 13.5%float /\
  Tween.mIsPaused (Tween.play 14 (Tween.pause 11 (Sample.tween 10))) = false.
Proof.
  split; [ reflexivity | ]. split; [ reflexivity | ].
  rewrite (proj1 (pause_then_play_resumes (Sample.tween 10) 11 14 14 eq_refl)).
  split; reflexivity.
Defined.

Lemma play_after_pause_and_stop_does_not_start_witness :
  Tween.mIsPlaying (Sample.tween 10) = true /\
  Tween.mIsPlaying (Tween.play 14 (Tween.stop (Tween.pause 11 (Sample.tween 10)))) = false /\
  Tween.mIsPlaying
    (Tween.play 15 (Tween.play 14 (Tween.stop (Tween.pause 11 (Sample.tween 10))))) = true /\
  Tween.mStartTime
    (Tween.play 15 (Tween.play 14 (Tween.stop (Tween.pause 11 (Sample.tween 10)))))
  = 15.5%float.
Proof.
  split; [ reflexivity | ].
  destruct (play_after_pause_and_stop_does_not_start (Sample.tween 10) 11 14 15 eq_refl)
    as (_ & (Honce & _) & (Htwice & _ & Hstart)).
  split; [ exact Honce | ]. split; [ exact Htwice | exact Hstart ].
Defined.

Lemma reset_restarts_or_resumes_witness :
  Tween.mStartTime (Tween.reset 20 (Sample.tween 10)) = 20.5%float /\
  Tween.mIsPaused (Tween.pause 11 (Sample.tween 10)) = true /\
  Tween.mStartTime (Tween.reset 20 (Tween.pause 11 (Sample.tween 10))) = 19.5%float.
Proof.
  destruct (reset_restarts_or_resumes (Sample.tween 10) 20) as (_ & _ & Hrestart & _).
  destruct (reset_restarts_or_resumes (Tween.pause 11 (Sample.tween 10)) 20)
    as (_ & _ & _ & Hresume).
  split; [ exact (proj2 (Hrestart eq_refl eq_refl)) | ].
  split; [ reflexivity | ].
  exact (proj2 (proj2 (Hresume eq_refl eq_refl))).
Defined.
